(** * bind9-ctl: the reconciliation engine

    A shallow embedding of [models.py], [diffing.py] and the planning and
    apply logic of [controller.py], and the properties of the design
    document that can be settled on it.

    Conventions.  Python [str] is [string]; the text handled here (DNS
    names, RR types, zone data) is ASCII, and the character classes below
    are the ASCII part of Python's.  Python [int] is [Z] (unbounded).
    [None] is [None]; a raised exception is the left injection of a sum.
    A [dict] is the list of its items in insertion order.

    What lies outside the repository is a parameter: the clock that the
    serial reads ([Clock]), the glob matcher of the ignore filter, the
    template renderer, and the answers of the operator, of the commands
    and of the name server ([World]).  What [apply] does to the world is
    written, in order, to a journal of [Effect]s. *)

From Stdlib Require Import String Ascii List Bool Arith ZArith Lia.
From Stdlib Require Import DecimalString Sorted OrdersEx RelationClasses.
From Stdlib Require Import Permutation.
From Equations Require Import Equations.
Import ListNotations.
Open Scope string_scope.
Open Scope list_scope.
Open Scope nat_scope.

(* ===================================================================== *)
(** * The interpreter's string primitives *)
(* ===================================================================== *)

Module Py.

(** [str.isspace] on one ASCII character: TAB, LF, VT, FF, CR, the four
    separators FS, GS, RS, US, and the blank. *)
Definition is_space (c : ascii) : bool :=
  let n := nat_of_ascii c in
  ((9 <=? n) && (n <=? 13)) || ((28 <=? n) && (n <=? 32)).

Definition lower_char (c : ascii) : ascii :=
  let n := nat_of_ascii c in
  if (65 <=? n) && (n <=? 90) then ascii_of_nat (n + 32) else c.

Definition upper_char (c : ascii) : ascii :=
  let n := nat_of_ascii c in
  if (97 <=? n) && (n <=? 122) then ascii_of_nat (n - 32) else c.

Fixpoint map_chars (f : ascii -> ascii) (s : string) : string :=
  match s with
  | EmptyString => EmptyString
  | String c s' => String (f c) (map_chars f s')
  end.

(** [s.lower()] and [s.upper()]. *)
Definition lower : string -> string := map_chars lower_char.
Definition upper : string -> string := map_chars upper_char.

(** [s.lstrip()], [s.rstrip()], [s.strip()]. *)
Fixpoint lstrip (s : string) : string :=
  match s with
  | EmptyString => EmptyString
  | String c s' => if is_space c then lstrip s' else s
  end.

Fixpoint rstrip (s : string) : string :=
  match s with
  | EmptyString => EmptyString
  | String c s' =>
      match rstrip s' with
      | EmptyString => if is_space c then EmptyString else String c EmptyString
      | r => String c r
      end
  end.

Definition strip (s : string) : string := rstrip (lstrip s).

(** [s.rstrip(chars)] for a one-character [chars]. *)
Fixpoint rstrip_char (d : ascii) (s : string) : string :=
  match s with
  | EmptyString => EmptyString
  | String c s' =>
      match rstrip_char d s' with
      | EmptyString => if Ascii.eqb c d then EmptyString else String c EmptyString
      | r => String c r
      end
  end.

(** [s.endswith(suffix)]. *)
Definition endswith (s suffix : string) : bool :=
  (String.length suffix <=? String.length s) &&
  String.eqb
    (substring (String.length s - String.length suffix) (String.length suffix) s)
    suffix.

(** The slice [s[:-n]] for a natural [n]: [-0] is [0], so [s[:-0]] is
    empty; otherwise the last [n] characters are dropped (everything, when
    [n] exceeds the length). *)
Definition slice_to_neg (n : nat) (s : string) : string :=
  match n with
  | O => EmptyString
  | _ => substring 0 (String.length s - n) s
  end.

(** [s.split()]: the maximal runs of non-blank characters, in order. *)
Definition at_boundary (s : string) : bool :=
  match s with
  | EmptyString => true
  | String c _ => is_space c
  end.

Fixpoint split (s : string) : list string :=
  match s with
  | EmptyString => []
  | String c s' =>
      if is_space c then split s'
      else if at_boundary s' then String c EmptyString :: split s'
      else match split s' with
           | tok :: toks => String c tok :: toks
           | [] => [String c EmptyString]
           end
  end.

(** [sep.join(parts)]. *)
Definition join (sep : string) (parts : list string) : string :=
  String.concat sep parts.

(** [str(n)] for an integer. *)
Definition str_of_int (n : Z) : string :=
  NilZero.string_of_int (Z.to_int n).

(** [int(s)] in base ten: surrounding blanks are dropped, one sign is
    allowed, and single underscores may separate digits.  [None] stands
    for the [ValueError] of a text that is not an integer literal. *)
Definition digit_value (c : ascii) : option Z :=
  let n := nat_of_ascii c in
  if (48 <=? n) && (n <=? 57) then Some (Z.of_nat (n - 48)) else None.

Fixpoint digits_value (acc : Z) (after_digit : bool) (s : string) : option Z :=
  match s with
  | EmptyString => if after_digit then Some acc else None
  | String c s' =>
      match digit_value c with
      | Some d => digits_value (10 * acc + d) true s'
      | None =>
          if Ascii.eqb c "_" && after_digit then digits_value acc false s'
          else None
      end
  end.

Definition int_of_str (s : string) : option Z :=
  match strip s with
  | String "-" ds => option_map Z.opp (digits_value 0 false ds)
  | String "+" ds => digits_value 0 false ds
  | ds => digits_value 0 false ds
  end.

(** Truthiness of the optional values that the [or] chains test. *)
Definition truthy_str (o : option string) : bool :=
  match o with
  | Some s => negb (String.eqb s "")
  | None => false
  end.

Definition truthy_int (o : option Z) : bool :=
  match o with
  | Some n => negb (n =? 0)%Z
  | None => false
  end.

End Py.

(* ===================================================================== *)
(** * models.py *)
(* ===================================================================== *)

(** Exceptions that the modelled code raises or lets through. *)
Inductive Exception : Type :=
| Bind9CtlError (msg : string)
| ValueError (text : string)
| CalledProcessError (cmd : list string)
| ExternalError (what : string).

Definition result (A : Type) : Type := (Exception + A)%type.

(** [_ensure_absolute] of models.py. *)
Definition _ensure_absolute (name : string) : string :=
  let stripped := Py.strip name in
  if String.eqb stripped "" then "."
  else if String.eqb stripped "@" then "."
  else if Py.endswith stripped "." then stripped else stripped ++ ".".

(** The dataclass [Record] ([Record] is a keyword here). *)
Record DnsRecord : Type := mkRecord {
  name : string;
  type : string;
  ttl : Z;
  value : string;
  priority : option Z
}.

Definition canonical_name (self : DnsRecord) : string :=
  Py.lower (_ensure_absolute (name self)).

Definition canonical_type (self : DnsRecord) : string :=
  Py.upper (type self).

(** [parts[-1] = f(parts[-1])] on a non-empty list. *)
Fixpoint map_last (f : string -> string) (parts : list string) : list string :=
  match parts with
  | [] => []
  | [p] => [f p]
  | p :: ps => p :: map_last f ps
  end.

Definition mem_str (x : string) (l : list string) : bool :=
  existsb (String.eqb x) l.

Definition canonical_value (self : DnsRecord) : string :=
  let value0 := Py.strip (value self) in
  let ctype := canonical_type self in
  let value1 :=
    if mem_str ctype ["CNAME"; "NS"; "PTR"] then Py.lower (_ensure_absolute value0)
    else if String.eqb ctype "MX" then Py.lower (_ensure_absolute value0)
    else if String.eqb ctype "SRV" then
      match Py.split value0 with
      | [] => value0
      | parts => Py.join " " (map_last (fun t => Py.lower (_ensure_absolute t)) parts)
      end
    else value0 in
  match priority self with
  | Some p => Py.str_of_int p ++ " " ++ value1
  | None => value1
  end.

Definition owner_for_zone (self : DnsRecord) (origin : string) : string :=
  let absolute_origin := Py.lower (_ensure_absolute origin) in
  let absolute_name := canonical_name self in
  if String.eqb absolute_name absolute_origin then "@"
  else if Py.endswith absolute_name absolute_origin then
    let relative := Py.slice_to_neg (String.length absolute_origin) absolute_name in
    let relative := if Py.endswith relative "." then Py.slice_to_neg 1 relative
                    else relative in
    if String.eqb relative "" then "@" else relative
  else absolute_name.

Definition key (self : DnsRecord) : string * string * string :=
  (canonical_name self, canonical_type self, canonical_value self).

Record ZoneState : Type := mkZoneState {
  origin : string;
  records : list DnsRecord;
  default_ttl : option Z
}.

Definition is_soa (r : DnsRecord) : bool := String.eqb (canonical_type r) "SOA".

Definition find_soa (self : ZoneState) : option DnsRecord :=
  find is_soa (records self).

Record SOAConfig : Type := mkSOAConfig {
  primary_ns : string;
  admin_email : string;
  serial : Z;
  refresh : Z;
  retry : Z;
  expire : Z;
  minimum : Z
}.

Record ZoneDiff : Type := mkZoneDiff {
  added : list DnsRecord;
  removed : list DnsRecord;
  ttl_changed : list (DnsRecord * DnsRecord)
}.

Definition is_nil {A : Type} (l : list A) : bool :=
  match l with [] => true | _ => false end.

(** [bool(self.added or self.removed or self.ttl_changed)]. *)
Definition has_changes (self : ZoneDiff) : bool :=
  negb (is_nil (added self)) || negb (is_nil (removed self))
  || negb (is_nil (ttl_changed self)).

Definition total (self : ZoneDiff) : nat :=
  length (added self) + length (removed self) + length (ttl_changed self).

(* ===================================================================== *)
(** * diffing.py *)
(* ===================================================================== *)

(** A Python [dict]: keys in insertion order; assigning to a key that is
    present replaces its value where it stands. *)
Section Dict.
Context {K V : Type} (eqb : K -> K -> bool).

Definition dict : Type := list (K * V).

Fixpoint dict_get (d : dict) (k : K) : option V :=
  match d with
  | [] => None
  | (k', v) :: d' => if eqb k k' then Some v else dict_get d' k
  end.

Fixpoint dict_set (d : dict) (k : K) (v : V) : dict :=
  match d with
  | [] => [(k, v)]
  | (k', v') :: d' =>
      if eqb k k' then (k', v) :: d' else (k', v') :: dict_set d' k v
  end.

Definition dict_mem (d : dict) (k : K) : bool :=
  match dict_get d k with Some _ => true | None => false end.

Definition dict_keys (d : dict) : list K := map fst d.
End Dict.

Definition OwnerType : Type := (string * string)%type.

Definition owner_type_eqb (a b : OwnerType) : bool :=
  String.eqb (fst a) (fst b) && String.eqb (snd a) (snd b).

Definition ValueMap : Type := list (OwnerType * list (string * DnsRecord)).

(** The order of [sorted] on pairs of strings: by the first component,
    then by the second, each compared character by character. *)
Definition owner_type_compare (a b : OwnerType) : comparison :=
  match String_as_OT.compare (fst a) (fst b) with
  | Eq => String_as_OT.compare (snd a) (snd b)
  | c => c
  end.

Fixpoint insert_sorted (k : OwnerType) (l : list OwnerType) : list OwnerType :=
  match l with
  | [] => [k]
  | h :: t =>
      match owner_type_compare k h with
      | Lt => k :: l
      | Eq => l
      | Gt => h :: insert_sorted k t
      end
  end.

(** [sorted(set(a) | set(b))]: every key once, in increasing order. *)
Definition sorted_union (a b : list OwnerType) : list OwnerType :=
  fold_right insert_sorted [] (a ++ b).

Definition _build_value_map (state : ZoneState) : ValueMap :=
  fold_left
    (fun index record =>
       if String.eqb (canonical_type record) "SOA" then index
       else
         let key := (canonical_name record, canonical_type record) in
         let inner :=
           match dict_get owner_type_eqb index key with
           | Some d => d
           | None => []
           end in
         dict_set owner_type_eqb index key
           (dict_set String.eqb inner (canonical_value record) record))
    (records state) [].

Definition get_or_empty (m : ValueMap) (key : OwnerType) : list (string * DnsRecord) :=
  match dict_get owner_type_eqb m key with
  | Some d => d
  | None => []
  end.

(** The first inner loop of [diff_zones], over [desired_values.items()]. *)
Definition scan_desired (current_values : list (string * DnsRecord))
    (diff : ZoneDiff) (item : string * DnsRecord) : ZoneDiff :=
  let (value, record) := item in
  match dict_get String.eqb current_values value with
  | None => mkZoneDiff (added diff ++ [record]) (removed diff) (ttl_changed diff)
  | Some current_record =>
      if negb (ttl current_record =? ttl record)%Z
      then mkZoneDiff (added diff) (removed diff)
             (ttl_changed diff ++ [(current_record, record)])
      else diff
  end.

(** The second inner loop, over [current_values.items()]. *)
Definition scan_current (desired_values : list (string * DnsRecord))
    (diff : ZoneDiff) (item : string * DnsRecord) : ZoneDiff :=
  let (value, record) := item in
  if dict_mem String.eqb desired_values value then diff
  else mkZoneDiff (added diff) (removed diff ++ [record]) (ttl_changed diff).

Definition diff_key (desired_map current_map : ValueMap)
    (diff : ZoneDiff) (key : OwnerType) : ZoneDiff :=
  let desired_values := get_or_empty desired_map key in
  let current_values := get_or_empty current_map key in
  fold_left (scan_current desired_values) current_values
    (fold_left (scan_desired current_values) desired_values diff).

Definition diff_zones (desired current : ZoneState) : ZoneDiff :=
  let desired_map := _build_value_map desired in
  let current_map := _build_value_map current in
  let keys := sorted_union (dict_keys desired_map) (dict_keys current_map) in
  fold_left (diff_key desired_map current_map) keys (mkZoneDiff [] [] []).

(* ===================================================================== *)
(** * yaml_loader.py and config.py: the values the controller reads *)
(* ===================================================================== *)

(** [SOASpec]: the SOA overrides of the desired-state document. *)
Record SOASpec : Type := mkSOASpec {
  spec_primary_ns : option string;
  spec_admin_email : option string;
  spec_serial : option Z;
  spec_refresh : option Z;
  spec_retry : option Z;
  spec_expire : option Z;
  spec_minimum : option Z
}.

Record DesiredZone : Type := mkDesiredZone {
  state : ZoneState;
  soa_overrides : option SOASpec;
  ignore : list string
}.

Record TsigKey : Type := mkTsigKey {
  tsig_name : string;
  tsig_algorithm : string;
  tsig_secret : string
}.

(** [AppConfig], without the directories and the log level, which the
    modelled functions do not read. *)
Record AppConfig : Type := mkAppConfig {
  bind_server : string;
  bind_port : Z;
  bind_view : string;
  tsig : TsigKey;
  named_checkzone_bin : string;
  rndc_bin : string;
  rndc_server : string;
  serial_strategy : string;
  default_record_ttl : Z;
  git_auto_commit : bool;
  git_commit_template : string;
  apply_strategy : string
}.

(** [RenderResult] of renderer.py. *)
Record RenderResult : Type := mkRenderResult {
  text : string;
  output_path : string
}.

(* ===================================================================== *)
(** * controller.py *)
(* ===================================================================== *)

Record PlanResult : Type := mkPlanResult {
  desired : ZoneState;
  current : ZoneState;
  diff : ZoneDiff;
  soa : SOAConfig;
  render : RenderResult
}.

(** The dict that [_parse_soa_record] returns. *)
Record SOADict : Type := mkSOADict {
  get_primary_ns : string;
  get_admin_email : string;
  get_serial : Z;
  get_refresh : Z;
  get_retry : Z;
  get_expire : Z;
  get_minimum : Z
}.

(** A small exception monad for the pure part. *)
Definition bind_result {A B : Type} (m : result A) (f : A -> result B) : result B :=
  match m with
  | inl e => inl e
  | inr a => f a
  end.

Notation "x <-! m ;; k" := (bind_result m (fun x => k))
  (at level 61, m at next level, right associativity).

(** [int(text)]. *)
Definition int (text : string) : result Z :=
  match Py.int_of_str text with
  | Some n => inr n
  | None => inl (ValueError text)
  end.

Definition _parse_soa_record (record : DnsRecord) : result SOADict :=
  let parts := Py.split (value record) in
  if length parts <? 7 then inl (Bind9CtlError "SOA record is malformed.")
  else
    match parts with
    | p0 :: p1 :: p2 :: p3 :: p4 :: p5 :: p6 :: _ =>
        serial <-! int p2 ;;
        refresh <-! int p3 ;;
        retry <-! int p4 ;;
        expire <-! int p5 ;;
        minimum <-! int p6 ;;
        inr (mkSOADict p0 p1 serial refresh retry expire minimum)
    | _ => inl (ExternalError "IndexError")
    end.

(** What the clock says when the serial is computed: [int(time.time())]
    and the UTC calendar date. *)
Record Clock : Type := mkClock {
  unix_seconds : Z;
  utc_year : Z;
  utc_month : Z;
  utc_day : Z
}.

(** [int(now.strftime("%Y%m%d00"))]: four digits of year, two of month,
    two of day, two zeros. *)
Definition date_serial (clock : Clock) : Z :=
  (utc_year clock * 1000000 + utc_month clock * 10000 + utc_day clock * 100)%Z.

(** [while candidate <= current_serial: candidate += 1]. *)
Equations? bump_past (current_serial candidate : Z) : Z
  by wf (Z.to_nat (current_serial + 1 - candidate)) lt :=
  bump_past current_serial candidate with Z_le_gt_dec candidate current_serial => {
    | left _ => bump_past current_serial (candidate + 1)
    | right _ => candidate }.
Proof. lia. Qed.

(** The candidate of the strategy: the Unix time for "epoch", the date
    serial for anything else. *)
Definition strategy_candidate (clock : Clock) (strategy : string) : Z :=
  if String.eqb strategy "epoch" then unix_seconds clock
  else date_serial clock.

Definition _suggest_serial (clock : Clock) (strategy : string)
    (current_serial : option Z) : Z :=
  let candidate := strategy_candidate clock strategy in
  match current_serial with
  | None => candidate
  | Some current_serial => bump_past current_serial candidate
  end.

(** [overrides.get(k)] where [overrides] is the [SOASpec] as a dict, or
    the empty dict when there is none. *)
Definition overrides_get {A : Type} (overrides : option SOASpec)
    (field : SOASpec -> option A) : option A :=
  match overrides with
  | Some o => field o
  | None => None
  end.

(** [a or rest]: [a] when it is truthy, [rest] otherwise.  A string is
    truthy when it is not empty, an integer when it is not zero; [None]
    never is. *)
Definition or_str (a : option string) (rest : string) : string :=
  match a with
  | Some x => if Py.truthy_str a then x else rest
  | None => rest
  end.

Definition or_int (a : option Z) (rest : Z) : Z :=
  match a with
  | Some x => if Py.truthy_int a then x else rest
  | None => rest
  end.

(** [base = _parse_soa_record(base_record) if base_record else {}]: the
    parsed live SOA, [None] for the empty dict. *)
Definition live_soa (current : ZoneState) : result (option SOADict) :=
  match find_soa current with
  | Some base_record => d <-! _parse_soa_record base_record ;; inr (Some d)
  | None => inr None
  end.

Definition _build_soa_config (clock : Clock) (config : AppConfig)
    (desired : DesiredZone) (current : ZoneState) : result SOAConfig :=
  base <-! live_soa current ;;
  let overrides := soa_overrides desired in
  let primary_ns :=
    or_str (overrides_get overrides spec_primary_ns)
      (or_str (option_map get_primary_ns base) ("ns." ++ origin (state desired))) in
  let admin_email :=
    or_str (overrides_get overrides spec_admin_email)
      (or_str (option_map get_admin_email base)
         ("hostmaster." ++ origin (state desired))) in
  let serial_override := overrides_get overrides spec_serial in
  let current_serial := option_map get_serial base in
  let serial :=
    or_int serial_override
      (_suggest_serial clock (serial_strategy config) current_serial) in
  inr (mkSOAConfig primary_ns admin_email serial
         (or_int (overrides_get overrides spec_refresh)
            (or_int (option_map get_refresh base) 3600))
         (or_int (overrides_get overrides spec_retry)
            (or_int (option_map get_retry base) 600))
         (or_int (overrides_get overrides spec_expire)
            (or_int (option_map get_expire base) 604800))
         (or_int (overrides_get overrides spec_minimum)
            (or_int (option_map get_minimum base) 86400))).

(** The functions that match owner names against the ignore patterns.
    [fnmatch.fnmatch] belongs to Python's library, not to this repository:
    it is a parameter here, and every statement about the filter holds for
    any matcher. *)
Section IgnoreFilter.
Variable fnmatch : string -> string -> bool.

Definition _matches_pattern (name : string) (patterns : list string) : bool :=
  let lowered := Py.lower name in
  existsb (fun pattern => fnmatch lowered (Py.lower pattern)) patterns.

Definition _filter_records (state : ZoneState) (ignore_patterns : list string)
    : ZoneState :=
  if is_nil ignore_patterns then state
  else
    let filtered :=
      filter (fun record =>
                String.eqb (canonical_type record) "SOA"
                || negb (_matches_pattern (name record) ignore_patterns))
             (records state) in
    mkZoneState (origin state) filtered (default_ttl state).
End IgnoreFilter.

(** A matcher to run the filter with: [fnmatch] for the patterns whose
    special characters are [*] (any run of characters) and [?] (any one
    character); a bracket is read as itself. *)
Fixpoint glob_chars (pattern name : list ascii) {struct pattern} : bool :=
  match pattern with
  | [] => is_nil name
  | p :: pattern' =>
      if Ascii.eqb p "*" then
        (fix star (name : list ascii) : bool :=
           glob_chars pattern' name
           || match name with
              | [] => false
              | _ :: name' => star name'
              end) name
      else
        match name with
        | [] => false
        | c :: name' =>
            (Ascii.eqb p "?" || Ascii.eqb p c) && glob_chars pattern' name'
        end
  end.

Definition glob (name pattern : string) : bool :=
  glob_chars (list_ascii_of_string pattern) (list_ascii_of_string name).

(** ** The plan *)

(** [plan], from the point where its two collaborators have answered:
    [desired_zone] is what [load_desired_zone] returned and
    [current_state] what [fetch_zone_state] returned.  [render_zone] is
    the template renderer. *)
Definition plan (fnmatch : string -> string -> bool)
    (render_zone : AppConfig -> ZoneState -> SOAConfig -> result RenderResult)
    (clock : Clock) (config : AppConfig)
    (desired_zone : DesiredZone) (current_state : ZoneState) : result PlanResult :=
  let filtered_current := _filter_records fnmatch current_state (ignore desired_zone) in
  let diff := diff_zones (state desired_zone) filtered_current in
  soa <-! _build_soa_config clock config desired_zone current_state ;;
  render <-! render_zone config (state desired_zone) soa ;;
  inr (mkPlanResult (state desired_zone) current_state diff soa render).

(** ** The apply step and its effects *)

(** The operations of a dynamic update, as handed to the update object. *)
Inductive UpdateOp : Type :=
| OpDelete (owner rtype rdata : string)
| OpAdd (owner : string) (rttl : Z) (rtype rdata : string).

(** What [apply] does to the world, in the order it does it. *)
Inductive Effect : Type :=
| LogInfo (msg : string)
| LogDebug (msg : string)
| Input (prompt : string)
| MkdirParents (file : string)
| WriteText (file contents : string)
| Run (cmd : list string)
| QueryTcp (server : string) (port : Z) (zone : string) (ops : list UpdateOp).

(** How the world answers. *)
Record World : Type := mkWorld {
  (** the line the operator types at the prompt *)
  input_line : string;
  (** [subprocess.run(cmd, check=True)] returns *)
  exit_zero : list string -> bool;
  (** the captured output of a command *)
  stdout_of : list string -> string;
  (** [import dns...] succeeds *)
  dnspython_installed : bool;
  (** the exception, if any, of building the update message *)
  update_build_error : AppConfig -> string -> list UpdateOp -> option Exception;
  (** the answer of [dns.query.tcp]: an exception or the response code *)
  update_response : AppConfig -> string -> list UpdateOp -> result Z;
  (** [dns.rcode.to_text] *)
  rcode_text : Z -> string;
  (** [template.format(zone=z)] *)
  format_zone : string -> string -> result string
}.

(** Effects are written to a journal; an exception ends the run. *)
Definition M (A : Type) : Type := (list Effect * result A)%type.

Definition ret {A : Type} (a : A) : M A := ([], inr a).

Definition raise {A : Type} (e : Exception) : M A := ([], inl e).

Definition emit (e : Effect) : M unit := ([e], inr tt).

Definition bind {A B : Type} (m : M A) (f : A -> M B) : M B :=
  match m with
  | (j, inl e) => (j, inl e)
  | (j, inr a) => let (j', r) := f a in (j ++ j', r)
  end.

Definition lift {A : Type} (r : result A) : M A := ([], r).

Notation "x <- m ;; k" := (bind m (fun x => k))
  (at level 61, m at next level, right associativity).
Notation "m ;;; k" := (bind m (fun _ => k))
  (at level 61, right associativity).

(** [subprocess.run(cmd, check=True)]. *)
Definition run_checked (w : World) (cmd : list string) : M unit :=
  emit (Run cmd) ;;;
  if exit_zero w cmd then ret tt else raise (CalledProcessError cmd).

Definition _write_zone_file (render_result : RenderResult) : M unit :=
  emit (MkdirParents (output_path render_result)) ;;;
  emit (WriteText (output_path render_result) (text render_result)) ;;;
  emit (LogInfo ("Wrote zone file to " ++ output_path render_result)).

Definition _confirm (w : World) (zone : string) : M bool :=
  let prompt := ("Apply changes to " ++ zone ++ "? [y/N]: ")%string in
  emit (Input prompt) ;;;
  let response := Py.lower (Py.strip (input_line w)) in
  ret (mem_str response ["y"; "yes"]).

Definition _maybe_run_named_checkzone (w : World) (config : AppConfig)
    (zone zone_file : string) : M unit :=
  if String.eqb (named_checkzone_bin config) "" then
    emit (LogDebug "Skipping named-checkzone validation (no binary configured).")
  else
    let cmd := [named_checkzone_bin config; zone; zone_file] in
    emit (LogInfo ("Running " ++ Py.join " " cmd)) ;;;
    run_checked w cmd.

Definition _reload_zone (w : World) (config : AppConfig) (zone : string) : M unit :=
  if String.eqb (rndc_bin config) "" then
    raise (Bind9CtlError
             "RNDC binary not configured; cannot reload zone in 'zone' apply_strategy.")
  else
    let cmd := [rndc_bin config; "-s"; rndc_server config; "reload"; zone;
                bind_view config] in
    emit (LogInfo ("Running " ++ Py.join " " cmd)) ;;;
    run_checked w cmd.

(** The four loops of [_apply_dynamic_updates] over the update object. *)
Definition update_operations (d : ZoneDiff) : list UpdateOp :=
  map (fun record => OpDelete (name record) (type record) (value record)) (removed d)
  ++ map (fun pair => let (before, _) := pair : DnsRecord * DnsRecord in
                      OpDelete (name before) (type before) (value before))
         (ttl_changed d)
  ++ map (fun record => OpAdd (name record) (ttl record) (type record) (value record))
         (added d)
  ++ map (fun pair => let (_, record) := pair : DnsRecord * DnsRecord in
                      OpAdd (name record) (ttl record) (type record) (value record))
         (ttl_changed d).

Definition count_text {A : Type} (l : list A) : string :=
  Py.str_of_int (Z.of_nat (length l)).

Definition _apply_dynamic_updates (w : World) (config : AppConfig)
    (plan_result : PlanResult) : M unit :=
  if negb (dnspython_installed w) then
    raise (Bind9CtlError "dnspython is required for dynamic updates.")
  else
    let additions := added (diff plan_result) in
    let removals := removed (diff plan_result) in
    let ttl_changes := ttl_changed (diff plan_result) in
    if is_nil additions && is_nil removals && is_nil ttl_changes then
      emit (LogInfo "No record changes to send via dynamic update.")
    else
      let zone := origin (desired plan_result) in
      let ops := update_operations (diff plan_result) in
      match update_build_error w config zone ops with
      | Some e => raise e
      | None =>
          emit (LogInfo ("Sending dynamic update: " ++ count_text additions
                         ++ " additions, " ++ count_text removals
                         ++ " removals, " ++ count_text ttl_changes
                         ++ " ttl changes")) ;;;
          emit (QueryTcp (bind_server config) (bind_port config) zone ops) ;;;
          rcode <- lift (update_response w config zone ops) ;;
          if (rcode =? 0)%Z then ret tt
          else raise (Bind9CtlError ("Dynamic update failed with rcode "
                                     ++ rcode_text w rcode))
      end.

(** gitops.py *)
Definition is_git_repo (w : World) : M bool :=
  let cmd := ["git"; "rev-parse"; "--is-inside-work-tree"] in
  emit (Run cmd) ;;;
  if exit_zero w cmd then ret (String.eqb (Py.strip (stdout_of w cmd)) "true")
  else ret false.

Definition auto_commit (w : World) (paths : list string) (message : string) : M unit :=
  if is_nil paths then ret tt
  else
    run_checked w ("git" :: "add" :: paths) ;;;
    run_checked w ["git"; "commit"; "-m"; message].

Definition apply (w : World) (config : AppConfig) (plan_result : PlanResult)
    (assume_yes : bool) : M unit :=
  if negb (has_changes (diff plan_result)) then
    emit (LogInfo "No changes detected; nothing to apply.")
  else
    confirmed <- (if assume_yes then ret true
                  else _confirm w (origin (desired plan_result))) ;;
    if negb confirmed then emit (LogInfo "Apply aborted by user.")
    else
      _write_zone_file (render plan_result) ;;;
      _maybe_run_named_checkzone w config (origin (desired plan_result))
        (output_path (render plan_result)) ;;;
      (if String.eqb (apply_strategy config) "zone"
       then _reload_zone w config (origin (desired plan_result))
       else _apply_dynamic_updates w config plan_result) ;;;
      in_repo <- (if git_auto_commit config then is_git_repo w else ret false) ;;
      (if in_repo then
         message <- lift (format_zone w (git_commit_template config)
                            (Py.rstrip_char "." (origin (desired plan_result)))) ;;
         auto_commit w [output_path (render plan_result)] message
       else ret tt) ;;;
      emit (LogInfo ("Apply complete for " ++ origin (desired plan_result))).

(** The effects other than log lines. *)
Definition is_log (e : Effect) : bool :=
  match e with
  | LogInfo _ | LogDebug _ => true
  | _ => false
  end.

Definition side_effects (j : list Effect) : list Effect :=
  filter (fun e => negb (is_log e)) j.

(** [pull_state], from the point where [fetch_zone_state] has answered. *)
Definition pull_state (zone_state : ZoneState) : result (ZoneState * option SOADict) :=
  soa <-! live_soa zone_state ;;
  inr (zone_state, soa).

(* ===================================================================== *)
(** * models.py: the index of a zone state *)
(* ===================================================================== *)

Definition RecordKey : Type := (string * string * string)%type.

Definition key_eqb (a b : RecordKey) : bool :=
  String.eqb (fst (fst a)) (fst (fst b))
  && String.eqb (snd (fst a)) (snd (fst b))
  && String.eqb (snd a) (snd b).

(** [{record.key(): record for record in self.records}]. *)
Definition index (self : ZoneState) : list (RecordKey * DnsRecord) :=
  fold_left (fun d record => dict_set key_eqb d (key record) record)
    (records self) [].

(* ===================================================================== *)
(** * yaml_loader.py *)
(* ===================================================================== *)

Module YamlLoader.

(** [ValidationError], the exception of this module. *)
Inductive LoadError : Type :=
| ValidationError (msg : string).

Definition FQDN_TYPES : list string := ["CNAME"; "MX"; "NS"; "PTR"].

(** [RecordSpec] and [ZoneSpec], as the schema validation returns them. *)
Record RecordSpec : Type := mkRecordSpec {
  rs_name : string;
  rs_type : string;
  rs_value : string;
  rs_ttl : option Z;
  rs_priority : option Z
}.

(** The field validator of [RecordSpec.type]. *)
Definition _uppercase_type (value : string) : string := Py.upper value.

(** [RecordSpec(name=..., type=..., ...)]: the validator runs on the type. *)
Definition RecordSpec_init (name type value : string) (ttl priority : option Z)
    : RecordSpec :=
  mkRecordSpec name (_uppercase_type type) value ttl priority.

Record ZoneSpec : Type := mkZoneSpec {
  zs_zone : option string;
  zs_default_ttl : option Z;
  zs_records : list RecordSpec;
  zs_soa : option SOASpec;
  zs_ignore : list string
}.

Definition _ensure_absolute (name : string) : string :=
  let stripped := Py.strip name in
  if mem_str stripped [""; "@"; "."] then "."
  else if Py.endswith stripped "." then stripped else (stripped ++ ".")%string.

Definition _normalise_owner (name origin : string) : string :=
  if mem_str name [""; "@"; "."] then origin
  else if Py.endswith name "." then name
  else
    let trimmed_origin := Py.rstrip_char "." origin in
    (name ++ "." ++ trimmed_origin ++ ".")%string.

Definition _normalise_value (rtype value origin : string) : LoadError + string :=
  let cleaned := Py.strip value in
  if mem_str rtype FQDN_TYPES then
    if Py.endswith cleaned "." then inr cleaned
    else inr (_normalise_owner cleaned origin)
  else if String.eqb rtype "SRV" then
    let parts := Py.split cleaned in
    if length parts <? 3 then
      inl (ValidationError "SRV record value must include weight, port, and target.")
    else inr (Py.join " " (map_last _ensure_absolute parts))
  else inr cleaned.

(** The loop of [load_desired_zone] over [spec.records]: the first record
    that fails ends it. *)
Fixpoint load_records (default_ttl : Z) (origin : string) (specs : list RecordSpec)
    : LoadError + list DnsRecord :=
  match specs with
  | [] => inr []
  | record :: rest =>
      let ttl := or_int (rs_ttl record) default_ttl in
      let owner := _normalise_owner (rs_name record) origin in
      match _normalise_value (rs_type record) (rs_value record) origin with
      | inl e => inl e
      | inr value =>
          match load_records default_ttl origin rest with
          | inl e => inl e
          | inr records =>
              inr (mkRecord owner (rs_type record) ttl value (rs_priority record)
                   :: records)
          end
      end
  end.

(** [load_desired_zone], from the validated [ZoneSpec] on. *)
Definition load_desired_zone (config : AppConfig) (spec : ZoneSpec)
    (zone_hint : option string) : LoadError + DesiredZone :=
  let origin := _ensure_absolute (or_str (zs_zone spec) (or_str zone_hint "")) in
  if String.eqb origin "." then
    inl (ValidationError "Zone name is required via YAML 'zone' or --zone flag.")
  else
    let default_ttl := or_int (zs_default_ttl spec) (default_record_ttl config) in
    match load_records default_ttl origin (zs_records spec) with
    | inl e => inl e
    | inr records =>
        inr (mkDesiredZone (mkZoneState origin records (Some default_ttl))
               (zs_soa spec) (zs_ignore spec))
    end.

End YamlLoader.

(* ===================================================================== *)
(** * exporter.py *)
(* ===================================================================== *)

(** The entry of one record: the key "priority" is there when the record
    has a priority. *)
Record ExportedRecord : Type := mkExportedRecord {
  entry_name : string;
  entry_type : string;
  entry_ttl : Z;
  entry_value : string;
  entry_priority : option Z
}.

(** The exported zone: "default_ttl" and "soa" are optional keys. *)
Record ExportedZone : Type := mkExportedZone {
  data_zone : string;
  data_default_ttl : option Z;
  data_soa : option SOADict;
  data_records : list ExportedRecord
}.

Definition _record_to_dict (record : DnsRecord) (origin : string) : ExportedRecord :=
  mkExportedRecord (owner_for_zone record origin) (type record) (ttl record)
    (value record) (priority record).

(** The order of [sorted] on triples of strings. *)
Definition record_key_compare (a b : RecordKey) : comparison :=
  match owner_type_compare (fst a) (fst b) with
  | Eq => String_as_OT.compare (snd a) (snd b)
  | c => c
  end.

(** [sorted(items, key=sort_key)]: a stable sort, each item placed before
    the first item that is not smaller. *)
Section SortedBy.
Context {A : Type} (sort_key : A -> RecordKey).

Fixpoint insert_by (x : A) (l : list A) : list A :=
  match l with
  | [] => [x]
  | h :: t =>
      match record_key_compare (sort_key x) (sort_key h) with
      | Gt => h :: insert_by x t
      | _ => x :: l
      end
  end.

Definition sorted_by (l : list A) : list A := fold_right insert_by [] l.
End SortedBy.

Definition zone_state_to_dict (zone_state : ZoneState) (soa : option SOADict)
    : ExportedZone :=
  let records :=
    map (fun record => _record_to_dict record (origin zone_state))
      (filter (fun record => negb (String.eqb (canonical_type record) "SOA"))
         (sorted_by (fun rec => (owner_for_zone rec (origin zone_state),
                                 type rec, value rec))
            (records zone_state))) in
  mkExportedZone (origin zone_state)
    (if Py.truthy_int (default_ttl zone_state) then default_ttl zone_state else None)
    soa records.

(* ===================================================================== *)
(** * cli.py and config.py *)
(* ===================================================================== *)

(** ["=" in value]. *)
Fixpoint contains_char (c : ascii) (s : string) : bool :=
  match s with
  | EmptyString => false
  | String x s' => Ascii.eqb x c || contains_char c s'
  end.

(** [value.split(sep, 1)] of a string that holds [sep]: what stands before
    its first occurrence, and what stands after. *)
Fixpoint split_once (sep : ascii) (s : string) : string * string :=
  match s with
  | EmptyString => (EmptyString, EmptyString)
  | String x s' =>
      if Ascii.eqb x sep then (EmptyString, s')
      else let (k, v) := split_once sep s' in (String x k, v)
  end.

Definition _parse_template_vars (values : option (list string))
    : result (list (string * string)) :=
  match values with
  | None => inr []
  | Some values =>
      fold_left
        (fun acc value =>
           result <-! acc ;;
           if negb (contains_char "=" value) then
             inl (Bind9CtlError ("Invalid template var '" ++ value
                                 ++ "', expected KEY=VALUE."))
           else
             let (key, val) := split_once "=" value in
             inr (dict_set String.eqb result key val))
        values (inr [])
  end.

(** [_parse_bool] of config.py. *)
Definition _parse_bool (value : option string) (default : bool) : bool :=
  match value with
  | None => default
  | Some v => mem_str (Py.lower (Py.strip v)) ["1"; "true"; "yes"; "y"; "on"]
  end.

(* ===================================================================== *)
(** * Notions used to state the properties *)
(* ===================================================================== *)

(** The strict order behind [owner_type_compare]. *)
Definition key_lt (a b : OwnerType) : Prop := owner_type_compare a b = Lt.

(** The records of [mine] whose value [other] does not hold. *)
Definition items_absent (other mine : list (string * DnsRecord)) : list DnsRecord :=
  flat_map (fun item => if dict_mem String.eqb other (fst item) then []
                        else [snd item]) mine.

(** The pairs (record of [theirs], record of [mine]) on one value whose
    TTLs differ. *)
Definition items_retimed (theirs mine : list (string * DnsRecord))
    : list (DnsRecord * DnsRecord) :=
  flat_map (fun item => match dict_get String.eqb theirs (fst item) with
                        | Some other => if negb (ttl other =? ttl (snd item))%Z
                                        then [(other, snd item)] else []
                        | None => []
                        end) mine.

(** A value map holds records of its state only, none of type SOA, each
    under its canonical owner and type and under its canonical value. *)
Definition entry_ok (state : ZoneState) (key : OwnerType)
    (item : string * DnsRecord) : Prop :=
  In (snd item) (records state)
  /\ canonical_type (snd item) <> "SOA"
  /\ key = (canonical_name (snd item), canonical_type (snd item))
  /\ fst item = canonical_value (snd item).

Definition map_ok (state : ZoneState) (m : ValueMap) : Prop :=
  forall key inner item, In (key, inner) m -> In item inner -> entry_ok state key item.

Definition is_delete (op : UpdateOp) : bool :=
  match op with
  | OpDelete _ _ _ => true
  | OpAdd _ _ _ _ => false
  end.

(** One turn of the loop of [_build_value_map]. *)
Definition value_map_step (index : ValueMap) (record : DnsRecord) : ValueMap :=
  if String.eqb (canonical_type record) "SOA" then index
  else
    dict_set owner_type_eqb index (canonical_name record, canonical_type record)
      (dict_set String.eqb
         (get_or_empty index (canonical_name record, canonical_type record))
         (canonical_value record) record).

(** The last record of a state, SOA apart, with a given identity key. *)
Definition last_with_key (state : ZoneState) (K : RecordKey) : option DnsRecord :=
  find (fun r => negb (is_soa r) && key_eqb K (key r)) (rev (records state)).

(** The last record of a state with a given identity key, SOA or not. *)
Definition last_indexed (state : ZoneState) (K : RecordKey) : option DnsRecord :=
  find (fun r => key_eqb K (key r)) (rev (records state)).

(** The effects that run a command or send an update. *)
Definition is_command (e : Effect) : bool :=
  match e with
  | Run _ | QueryTcp _ _ _ _ => true
  | _ => false
  end.

(** The dynamic updates among the effects of a run, in order. *)
Definition is_update (e : Effect) : bool :=
  match e with
  | QueryTcp _ _ _ _ => true
  | _ => false
  end.

Definition updates_sent (j : list Effect) : list Effect := filter is_update j.

(** [s.isascii()]: every character is below 128.  On such text the
    character classes of [Py] are all of Python's. *)
Fixpoint isascii (s : string) : bool :=
  match s with
  | EmptyString => true
  | String c s' => (nat_of_ascii c <? 128)%nat && isascii s'
  end.

(** The order of the exported records: not greater, by [record_key_compare]. *)
Definition key_le (a b : RecordKey) : Prop := record_key_compare a b <> Gt.

(** The sort key of an exported record: name, type and value. *)
Definition entry_key (e : ExportedRecord) : RecordKey :=
  (entry_name e, entry_type e, entry_value e).

(* ===================================================================== *)
(** * Sample data *)
(* ===================================================================== *)

Definition sample_config : AppConfig :=
  mkAppConfig "127.0.0.1" 53 "default"
    (mkTsigKey "ctl-key" "hmac-sha256" "c2VjcmV0")
    "named-checkzone" "rndc" "127.0.0.1" "date" 3600 false
    "feat(zone): update {zone}" "dynamic".

(** 1 January 2024, 00:00:00 UTC. *)
Definition sample_clock : Clock := mkClock 1704067200 2024 1 1.

Definition sample_soa_record : DnsRecord :=
  mkRecord "example.com." "SOA" 3600
    "ns1.example.com. hostmaster.example.com. 2024010100 7200 900 1209600 300" None.

Definition sample_soa_dict : SOADict :=
  mkSOADict "ns1.example.com." "hostmaster.example.com." 2024010100 7200 900 1209600 300.

Definition www_a : DnsRecord := mkRecord "www.example.com." "A" 300 "192.0.2.10" None.
Definition api_300 : DnsRecord := mkRecord "api" "A" 300 "9.9.9.9" None.
Definition api_600 : DnsRecord := mkRecord "api" "A" 600 "9.9.9.9" None.

Definition sample_current : ZoneState :=
  mkZoneState "example.com." [sample_soa_record; www_a] None.

Definition sample_desired : DesiredZone :=
  mkDesiredZone (mkZoneState "example.com." [www_a] (Some 3600%Z)) None [].

Definition no_overrides : SOASpec := mkSOASpec None None None None None None None.

(** An operator who answers "y", commands that succeed, a server that
    accepts the update. *)
Definition sample_world : World :=
  mkWorld " Y " (fun _ => true) (fun _ => "true") true
    (fun _ _ _ => None) (fun _ _ _ => inr 0%Z) (fun _ => "NOERROR")
    (fun _ zone => inr ("feat(zone): update " ++ zone)%string).

Definition sample_render_zone (config : AppConfig) (zone_state : ZoneState)
    (soa : SOAConfig) : result RenderResult :=
  inr (mkRenderResult "$ORIGIN example.com." "zones/example.com.zone").

(** The plan of a desired state that the live zone already has. *)
Definition unchanged_plan : PlanResult :=
  mkPlanResult (state sample_desired) sample_current (mkZoneDiff [] [] [])
    (mkSOAConfig "ns1.example.com." "hostmaster.example.com." 2024010101 7200 900
       1209600 300)
    (mkRenderResult "$ORIGIN example.com." "zones/example.com.zone").

(** The plan of one TTL change, from 300 to 600. *)
Definition api_plan : PlanResult :=
  mkPlanResult (mkZoneState "example.com." [api_600] None)
    (mkZoneState "example.com." [api_300] None)
    (mkZoneDiff [] [] [(api_300, api_600)])
    (mkSOAConfig "ns.example.com." "hostmaster.example.com." 2024010100 3600 600
       604800 86400)
    (mkRenderResult "$ORIGIN example.com." "zones/example.com.zone").

(** An operator who answers "n"; commands that all fail; a server that
    refuses the update (response code 5). *)
Definition declining_world : World :=
  mkWorld "n" (fun _ => true) (fun _ => "true") true
    (fun _ _ _ => None) (fun _ _ _ => inr 0%Z) (fun _ => "NOERROR")
    (fun _ zone => inr ("feat(zone): update " ++ zone)%string).

Definition failing_world : World :=
  mkWorld "y" (fun _ => false) (fun _ => "") true
    (fun _ _ _ => None) (fun _ _ _ => inr 0%Z) (fun _ => "NOERROR")
    (fun _ zone => inr ("feat(zone): update " ++ zone)%string).

Definition refusing_world : World :=
  mkWorld "y" (fun _ => true) (fun _ => "true") true
    (fun _ _ _ => None) (fun _ _ _ => inr 5%Z) (fun _ => "REFUSED")
    (fun _ zone => inr ("feat(zone): update " ++ zone)%string).

(** The sample configuration with the zone-file strategy. *)
Definition zone_config : AppConfig :=
  mkAppConfig "127.0.0.1" 53 "default"
    (mkTsigKey "ctl-key" "hmac-sha256" "c2VjcmV0")
    "named-checkzone" "rndc" "127.0.0.1" "date" 3600 false
    "feat(zone): update {zone}" "zone".

Definition acme_txt : DnsRecord :=
  mkRecord "_acme-challenge.example.com." "TXT" 60 "token" None.

Definition ignoring_current : ZoneState :=
  mkZoneState "example.com." [sample_soa_record; www_a; acme_txt] None.

(** A desired state with no record that ignores the challenge names. *)
Definition ignoring_desired : DesiredZone :=
  mkDesiredZone (mkZoneState "example.com." [] (Some 3600%Z)) None
    ["_ACME-challenge.*"].

(** A desired-state document: one record with the default TTL, one with
    its own, one relative CNAME. *)
Definition sample_spec : YamlLoader.ZoneSpec :=
  YamlLoader.mkZoneSpec (Some "Example.com") None
    [YamlLoader.RecordSpec_init "www" "a" "192.0.2.10" None None;
     YamlLoader.RecordSpec_init "@" "mx" "mail" (Some 0%Z) (Some 10%Z);
     YamlLoader.RecordSpec_init "api" "cname" "www" (Some 60%Z) None]
    None ["_acme-challenge.*"].

(* ===================================================================== *)
(** * Properties *)
(* ===================================================================== *)

(** ** The string primitives at work *)

Example split_soa :
  Py.split "ns1.example.com.  hostmaster.example.com. 2024010100 3600 600 604800 86400 "
  = ["ns1.example.com."; "hostmaster.example.com."; "2024010100"; "3600";
     "600"; "604800"; "86400"].
Proof. reflexivity. Qed.

Example strip_lower : Py.lower (Py.strip "  WWW.Example.COM. ") = "www.example.com.".
Proof. reflexivity. Qed.

Example int_of_str_examples :
  Py.int_of_str "2024010100" = Some 2024010100%Z /\
  Py.int_of_str "-7" = Some (-7)%Z /\
  Py.int_of_str "1_000" = Some 1000%Z /\
  Py.int_of_str "1__0" = None /\
  Py.int_of_str "12a" = None /\
  Py.int_of_str "" = None.
Proof. repeat split; reflexivity. Qed.

Example str_of_int_examples :
  Py.str_of_int 10 = "10" /\ Py.str_of_int 0 = "0" /\ Py.str_of_int (-3) = "-3".
Proof. repeat split; reflexivity. Qed.

Example slice_examples :
  Py.slice_to_neg 1 "www." = "www" /\
  Py.slice_to_neg 12 "www.example.com." = "www." /\
  Py.endswith "www.example.com." "example.com." = true /\
  Py.endswith "com." "example.com." = false.
Proof. repeat split; reflexivity. Qed.

Example glob_examples :
  glob "www.example.com." "*.example.com." = true /\
  glob "example.com." "*.example.com." = false /\
  glob "ns1.example.com." "ns?.example.com." = true /\
  glob "www.example.com" "www.example.com." = false.
Proof. repeat split; reflexivity. Qed.

(** ** Facts about strings *)

Section StringFacts.

Lemma length_append (a b : string) :
  String.length (a ++ b) = String.length a + String.length b.
Proof. induction a as [|c a IH]; simpl; [reflexivity | now rewrite IH]. Qed.

Lemma substring_0_length (s : string) : substring 0 (String.length s) s = s.
Proof. induction s as [|c s IH]; simpl; [reflexivity | now rewrite IH]. Qed.

Lemma substring_prefix (a b : string) :
  substring 0 (String.length a) (a ++ b) = a.
Proof.
  induction a as [|c a IH]; simpl.
  - destruct b; reflexivity.
  - now rewrite IH.
Qed.

Lemma substring_suffix (a b : string) :
  substring (String.length a) (String.length b) (a ++ b) = b.
Proof.
  induction a as [|c a IH]; simpl; [apply substring_0_length | exact IH].
Qed.

Lemma substring_split (n : nat) (s : string) :
  n <= String.length s ->
  s = (substring 0 n s ++ substring n (String.length s - n) s)%string.
Proof.
  revert n. induction s as [|c s IH]; intros n Hn; simpl in *.
  - destruct n; [reflexivity | lia].
  - destruct n as [|n]; simpl.
    + now rewrite substring_0_length.
    + f_equal. apply IH. lia.
Qed.

Lemma append_empty_r (s : string) : (s ++ "")%string = s.
Proof. induction s as [|c s IH]; simpl; [reflexivity | now rewrite IH]. Qed.

Lemma append_assoc (a b c : string) :
  ((a ++ b) ++ c)%string = (a ++ (b ++ c))%string.
Proof. induction a as [|x a IH]; simpl; [reflexivity | now rewrite IH]. Qed.

Lemma append_inj_r (a a' b : string) :
  (a ++ b)%string = (a' ++ b)%string -> a = a'.
Proof.
  intros H.
  assert (Hl : String.length a = String.length a').
  { apply (f_equal String.length) in H. rewrite !length_append in H. lia. }
  rewrite <- (substring_prefix a b), <- (substring_prefix a' b).
  now rewrite H, Hl.
Qed.

(** [endswith] is the suffix relation. *)
Lemma endswith_iff (s suffix : string) :
  Py.endswith s suffix = true <-> exists pre, s = (pre ++ suffix)%string.
Proof.
  unfold Py.endswith. rewrite andb_true_iff, Nat.leb_le, String.eqb_eq. split.
  - intros [Hle Hsub].
    exists (substring 0 (String.length s - String.length suffix) s).
    rewrite (substring_split (String.length s - String.length suffix) s) at 1 by lia.
    f_equal. rewrite <- Hsub at 3. f_equal. lia.
  - intros [pre ->]. rewrite length_append. split; [lia |].
    replace (String.length pre + String.length suffix - String.length suffix)
      with (String.length pre) by lia.
    apply substring_suffix.
Qed.


(** Dropping a suffix by its length. *)
Lemma slice_to_neg_append (pre suffix : string) :
  suffix <> "" ->
  Py.slice_to_neg (String.length suffix) (pre ++ suffix) = pre.
Proof.
  intros Hne. unfold Py.slice_to_neg.
  destruct (String.length suffix) eqn:E.
  - destruct suffix; [now destruct Hne | discriminate].
  - rewrite <- E, length_append.
    replace (String.length pre + String.length suffix - String.length suffix)
      with (String.length pre) by lia.
    apply substring_prefix.
Qed.

Lemma length_lower (s : string) : String.length (Py.lower s) = String.length s.
Proof.
  unfold Py.lower. induction s as [|c s IH]; simpl; [reflexivity | now rewrite IH].
Qed.

Lemma _ensure_absolute_nonempty (name : string) : _ensure_absolute name <> "".
Proof.
  unfold _ensure_absolute.
  destruct (String.eqb_spec (Py.strip name) ""); [discriminate |].
  destruct (String.eqb_spec (Py.strip name) "@"); [discriminate |].
  destruct (Py.endswith (Py.strip name) "."); [assumption |].
  destruct (Py.strip name); [contradiction | discriminate].
Qed.

Lemma lower_nonempty (s : string) : s <> "" -> Py.lower s <> "".
Proof. destruct s; [contradiction | discriminate]. Qed.

End StringFacts.


(** ** Record model: [owner_for_zone] *)

(** The canonical origin is never empty, so the slice that drops it never
    meets the [-0] case. *)
Lemma canonical_origin_nonempty (origin : string) :
  Py.lower (_ensure_absolute origin) <> "".
Proof. apply lower_nonempty, _ensure_absolute_nonempty. Qed.

Lemma append_nonempty_neq (rel s : string) : rel <> "" -> (rel ++ s)%string <> s.
Proof.
  intros Hne H. apply (f_equal String.length) in H. rewrite length_append in H.
  destruct rel; [contradiction | simpl in H; lia].
Qed.

(** The relative branch of [owner_for_zone], in terms of the prefix that
    the origin leaves. *)
Lemma owner_for_zone_relative (self : DnsRecord) (origin rel : string) :
  rel <> "" ->
  canonical_name self = (rel ++ Py.lower (_ensure_absolute origin))%string ->
  owner_for_zone self origin =
    let relative := if Py.endswith rel "." then Py.slice_to_neg 1 rel else rel in
    if String.eqb relative "" then "@" else relative.
Proof.
  intros Hne Hcn. unfold owner_for_zone. rewrite Hcn.
  destruct (String.eqb_spec (rel ++ Py.lower (_ensure_absolute origin))
              (Py.lower (_ensure_absolute origin))) as [E | _].
  - now apply append_nonempty_neq in E.
  - replace (Py.endswith (rel ++ Py.lower (_ensure_absolute origin))
               (Py.lower (_ensure_absolute origin))) with true
      by (symmetry; apply endswith_iff; now exists rel).
    rewrite slice_to_neg_append by apply canonical_origin_nonempty.
    reflexivity.
Qed.





(** ** SOA negotiator: parsing the live SOA *)

Lemma int_inr (text : string) (n : Z) : int text = inr n <-> Py.int_of_str text = Some n.
Proof.
  unfold int. destruct (Py.int_of_str text); split; intros H;
    solve [inversion H; reflexivity | discriminate].
Qed.

Ltac split_tokens parts :=
  destruct parts as [|?p0 [|?p1 [|?p2 [|?p3 [|?p4 [|?p5 [|?p6 ?rest]]]]]]].

Ltac case_ints :=
  repeat match goal with
         | |- context [int ?t] =>
             let E := fresh "E" in
             unfold int at 1; destruct (Py.int_of_str t) eqn:E; simpl
         end.

(** C9 (as amended).  [_parse_soa_record] raises the malformed-SOA error
    exactly when the value has fewer than seven blank-separated tokens.
    With seven or more it succeeds exactly when tokens three to seven are
    integer literals, and then returns the first two tokens and the integer
    values of the next five, in that order; when one of the five is not an
    integer literal the conversion raises a [ValueError] instead. *)
Theorem _parse_soa_record_cases (record : DnsRecord) :
  let parts := Py.split (value record) in
  let token i := nth i parts "" in
  (_parse_soa_record record = inl (Bind9CtlError "SOA record is malformed.")
   <-> length parts < 7)
  /\ (forall d, _parse_soa_record record = inr d <->
        7 <= length parts
        /\ get_primary_ns d = token 0 /\ get_admin_email d = token 1
        /\ Py.int_of_str (token 2) = Some (get_serial d)
        /\ Py.int_of_str (token 3) = Some (get_refresh d)
        /\ Py.int_of_str (token 4) = Some (get_retry d)
        /\ Py.int_of_str (token 5) = Some (get_expire d)
        /\ Py.int_of_str (token 6) = Some (get_minimum d))
  /\ ((exists t, _parse_soa_record record = inl (ValueError t)) <->
        7 <= length parts
        /\ exists i, 2 <= i <= 6 /\ Py.int_of_str (token i) = None).
Proof.
  cbv zeta. unfold _parse_soa_record.
  split_tokens (Py.split (value record)); simpl.
  1-7: split; [split; [lia | reflexivity] |];
       split; [intros d; split; [discriminate | lia] |];
       split; [intros [t H]; discriminate | lia].
  unfold bind_result. split; [| split].
  - split; [| lia]. case_ints; discriminate.
  - intros [n e s r t x m]; simpl.
    case_ints; (split; [intros H; inversion H; subst; repeat split; lia
                       | intros (_ & -> & -> & H2 & H3 & H4 & H5 & H6);
                         congruence]).
  - split.
    + intros [t H]. split; [lia |]. revert H. case_ints; intros H; try discriminate.
      * exists 6; split; [lia | assumption].
      * exists 5; split; [lia | assumption].
      * exists 4; split; [lia | assumption].
      * exists 3; split; [lia | assumption].
      * exists 2; split; [lia | assumption].
    + intros (_ & i & Hi & H).
      assert (Hc : i = 2 \/ i = 3 \/ i = 4 \/ i = 5 \/ i = 6) by lia.
      destruct Hc as [-> | [-> | [-> | [-> | ->]]]]; simpl in H;
        case_ints; try congruence; eexists; reflexivity.
Qed.

(** C9 (as stated) fails: seven tokens do not make the parse succeed.
    With a third token that is no integer literal the conversion of the
    serial raises a [ValueError]. *)
Lemma _parse_soa_record_counterexample :
  let record :=
    mkRecord "example.com." "SOA" 3600
      "ns1.example.com. hostmaster.example.com. abc 3600 600 604800 86400" None in
  length (Py.split (value record)) = 7
  /\ _parse_soa_record record = inl (ValueError "abc").
Proof. split; reflexivity. Qed.

Example _parse_soa_record_live :
  _parse_soa_record
    (mkRecord "example.com." "SOA" 3600
       "ns1.example.com. hostmaster.example.com. 2024010100 3600 600 604800 86400"
       None)
  = inr (mkSOADict "ns1.example.com." "hostmaster.example.com."
           2024010100 3600 600 604800 86400).
Proof. reflexivity. Qed.

Example _parse_soa_record_short :
  _parse_soa_record (mkRecord "example.com." "SOA" 3600 "ns1.example.com. 1 2 3" None)
  = inl (Bind9CtlError "SOA record is malformed.").
Proof. reflexivity. Qed.


(** ** SOA negotiator: the serial *)

Section Serial.
Local Open Scope Z_scope.

(** The loop stops, at the candidate or just past the live serial. *)
Lemma bump_past_spec (current_serial candidate : Z) :
  bump_past current_serial candidate =
    if candidate <=? current_serial then current_serial + 1 else candidate.
Proof.
  funelim (bump_past current_serial candidate).
  - rewrite H. destruct (Z.leb_spec candidate current_serial); [| lia].
    destruct (Z.leb_spec (candidate + 1) current_serial); lia.
  - destruct (Z.leb_spec candidate current_serial); [lia | reflexivity].
Qed.

Lemma strategy_candidate_cases (clock : Clock) (strategy : string) :
  (strategy = "epoch" -> strategy_candidate clock strategy = unix_seconds clock)
  /\ (strategy <> "epoch" ->
      strategy_candidate clock strategy =
        utc_year clock * 1000000 + utc_month clock * 10000 + utc_day clock * 100).
Proof.
  unfold strategy_candidate, date_serial.
  destruct (String.eqb_spec strategy "epoch"); split; intros;
    solve [reflexivity | contradiction].
Qed.

Lemma _suggest_serial_prior (clock : Clock) (strategy : string) (prior : Z) :
  _suggest_serial clock strategy (Some prior) =
    if strategy_candidate clock strategy <=? prior then prior + 1
    else strategy_candidate clock strategy.
Proof. unfold _suggest_serial. apply bump_past_spec. Qed.

(** Once the live SOA is read, the configuration is built, and its serial
    is the override or the suggestion. *)
Lemma _build_soa_config_serial (clock : Clock) (config : AppConfig)
    (desired : DesiredZone) (current : ZoneState) (base : option SOADict) :
  live_soa current = inr base ->
  exists soa, _build_soa_config clock config desired current = inr soa
    /\ serial soa =
         or_int (overrides_get (soa_overrides desired) spec_serial)
           (_suggest_serial clock (serial_strategy config) (option_map get_serial base)).
Proof.
  intros H. unfold _build_soa_config. rewrite H. unfold bind_result.
  eexists. split; reflexivity.
Qed.

Lemma live_soa_parsed (current : ZoneState) (live : DnsRecord) (base : SOADict) :
  find_soa current = Some live -> _parse_soa_record live = inr base ->
  live_soa current = inr (Some base).
Proof. intros Hf Hp. unfold live_soa. rewrite Hf, Hp. reflexivity. Qed.

(** C2.  With no serial override and a live SOA whose serial is [prior],
    the negotiated serial is greater than [prior].  The candidate of the
    strategy is the Unix time in seconds for "epoch" and, for any other
    strategy, the number written YYYYMMDD00 from the UTC date, that is
    year * 1000000 + month * 10000 + day * 100; the negotiated serial is
    [prior + 1] whenever that candidate does not exceed [prior], and the
    candidate otherwise.  This holds for every strategy, clock and prior
    serial, a prior serial of a future date included. *)
Theorem negotiated_serial_exceeds_prior (clock : Clock) (config : AppConfig)
    (desired : DesiredZone) (current : ZoneState) (live : DnsRecord) (base : SOADict) :
  overrides_get (soa_overrides desired) spec_serial = None ->
  find_soa current = Some live ->
  _parse_soa_record live = inr base ->
  let prior := get_serial base in
  let candidate :=
    if String.eqb (serial_strategy config) "epoch" then unix_seconds clock
    else utc_year clock * 1000000 + utc_month clock * 10000 + utc_day clock * 100 in
  exists soa,
    _build_soa_config clock config desired current = inr soa
    /\ prior < serial soa
    /\ (candidate <= prior -> serial soa = prior + 1)
    /\ (prior < candidate -> serial soa = candidate).
Proof.
  intros Hov Hfind Hparse prior candidate.
  destruct (_build_soa_config_serial clock config desired current (Some base)
              (live_soa_parsed current live base Hfind Hparse))
    as (soa & Hsoa & Hserial).
  exists soa. split; [exact Hsoa |].
  rewrite Hserial, Hov. cbn [or_int option_map]. rewrite _suggest_serial_prior.
  assert (Hcand : strategy_candidate clock (serial_strategy config) = candidate).
  { destruct (strategy_candidate_cases clock (serial_strategy config)) as [He Hd].
    subst candidate.
    destruct (String.eqb_spec (serial_strategy config) "epoch") as [E | E];
      [exact (He E) | exact (Hd E)]. }
  rewrite Hcand. fold prior.
  destruct (Z.leb_spec candidate prior); lia.
Qed.

(** A second apply on the day of the live serial, 1 January 2024, under
    the date strategy: the candidate 2024010100 is the live serial, and
    the negotiated serial is 2024010101. *)
Lemma negotiated_serial_exceeds_prior_witness :
  exists soa,
    _build_soa_config sample_clock sample_config sample_desired sample_current = inr soa
    /\ 2024010100 < serial soa
    /\ serial soa = 2024010101.
Proof.
  destruct (negotiated_serial_exceeds_prior sample_clock sample_config sample_desired
              sample_current sample_soa_record sample_soa_dict
              eq_refl eq_refl eq_refl)
    as (soa & Hsoa & Hlt & Hle & _).
  exists soa. split; [exact Hsoa |]. split; [exact Hlt |].
  apply Hle. vm_compute. discriminate.
Defined.

(** The same day, a live serial from a future date under either strategy,
    and a first or later-day apply. *)
Example _suggest_serial_same_day :
  _suggest_serial sample_clock "date" (Some 2024010100) = 2024010101.
Proof. rewrite _suggest_serial_prior. reflexivity. Qed.

Example _suggest_serial_future_prior :
  _suggest_serial sample_clock "date" (Some 2030123199) = 2030123200
  /\ _suggest_serial sample_clock "epoch" (Some 2030123199) = 2030123200.
Proof. rewrite !_suggest_serial_prior. split; reflexivity. Qed.

Example _suggest_serial_fresh :
  _suggest_serial sample_clock "date" None = 2024010100
  /\ _suggest_serial sample_clock "epoch" None = 1704067200
  /\ _suggest_serial sample_clock "date" (Some 2023123105) = 2024010100.
Proof. rewrite _suggest_serial_prior. repeat split; reflexivity. Qed.

Example bump_past_runs : bump_past 2024010103 2024010100 = 2024010104.
Proof. reflexivity. Qed.

(** An explicit serial override other than zero is the negotiated serial,
    verbatim, whenever the live state can be read (it has no SOA, or one
    that parses): whatever the clock, the strategy and the live serial are,
    so neither the candidate nor the comparison with the live serial plays
    a part. *)
Theorem serial_override_verbatim (clock : Clock) (config : AppConfig)
    (desired : DesiredZone) (current : ZoneState) (base : option SOADict) (s : Z) :
  overrides_get (soa_overrides desired) spec_serial = Some s ->
  s <> 0 ->
  live_soa current = inr base ->
  exists soa,
    _build_soa_config clock config desired current = inr soa /\ serial soa = s.
Proof.
  intros Hov Hs Hlive.
  destruct (_build_soa_config_serial clock config desired current base Hlive)
    as (soa & Hsoa & Hserial).
  exists soa. split; [exact Hsoa |].
  rewrite Hserial, Hov. unfold or_int, Py.truthy_int.
  destruct (Z.eqb_spec s 0); [contradiction | reflexivity].
Qed.

(** An override below the live serial is taken as it is. *)
Lemma serial_override_verbatim_witness :
  exists soa,
    _build_soa_config sample_clock sample_config
      (mkDesiredZone (state sample_desired)
         (Some (mkSOASpec None None (Some 7) None None None None)) [])
      sample_current = inr soa
    /\ serial soa = 7.
Proof.
  apply (serial_override_verbatim sample_clock sample_config _ sample_current
           (Some sample_soa_dict) 7);
    [reflexivity | discriminate | reflexivity].
Defined.

(** C3, at the override 0.  The claim has every explicit override used
    verbatim; [serial_override or _suggest_serial(...)] tests the override
    for truth, so the explicit override 0 is passed over and the negotiated
    serial is the suggestion, one past the live serial here.  ([_suggest_serial]
    tells an absent live serial from zero with [is None].) *)
Lemma serial_override_zero_ignored :
  let desired :=
    mkDesiredZone (state sample_desired)
      (Some (mkSOASpec None None (Some 0) None None None None)) [] in
  overrides_get (soa_overrides desired) spec_serial = Some 0
  /\ _build_soa_config sample_clock sample_config desired sample_current
     = inr (mkSOAConfig "ns1.example.com." "hostmaster.example.com."
              2024010101 7200 900 1209600 300).
Proof. split; reflexivity. Qed.

(** The other fields: override, then live value, then the fallback. *)
Example _build_soa_config_resolution :
  _build_soa_config sample_clock sample_config
    (mkDesiredZone (state sample_desired)
       (Some (mkSOASpec (Some "ns9.example.com.") None None (Some 60) None None None)) [])
    sample_current
  = inr (mkSOAConfig "ns9.example.com." "hostmaster.example.com."
           2024010101 60 900 1209600 300)
  /\ _build_soa_config sample_clock sample_config sample_desired
       (mkZoneState "example.com." [www_a] None)
     = inr (mkSOAConfig "ns.example.com." "hostmaster.example.com."
              2024010100 3600 600 604800 86400).
Proof. split; reflexivity. Qed.

End Serial.


(** ** The ignore filter *)

Section FilterFacts.
Variable fnmatch : string -> string -> bool.

Lemma _matches_pattern_false (name : string) (patterns : list string) :
  _matches_pattern fnmatch name patterns = false <->
  forall p, In p patterns -> fnmatch (Py.lower name) (Py.lower p) = false.
Proof.
  unfold _matches_pattern. induction patterns as [|q qs IH]; simpl.
  - split; [intros _ p [] | reflexivity].
  - rewrite orb_false_iff, IH. split.
    + intros [Hq Hqs] p [<- | Hp]; [exact Hq | now apply Hqs].
    + intros H. split; [apply H; now left | intros p Hp; apply H; now right].
Qed.

Lemma filter_all {A : Type} (l : list A) : filter (fun _ => true) l = l.
Proof. induction l as [|x l IH]; simpl; [reflexivity | now rewrite IH]. Qed.

(** The filter is one pass of [filter] whose test reads the record and
    the patterns only. *)
Lemma _filter_records_records (state : ZoneState) (patterns : list string) :
  records (_filter_records fnmatch state patterns)
  = filter (fun record =>
              is_nil patterns
              || String.eqb (canonical_type record) "SOA"
              || negb (_matches_pattern fnmatch (name record) patterns))
      (records state).
Proof.
  unfold _filter_records. destruct patterns as [|p ps]; simpl.
  - now rewrite filter_all.
  - reflexivity.
Qed.

Lemma _filter_records_In (state : ZoneState) (patterns : list string) (r : DnsRecord) :
  In r (records (_filter_records fnmatch state patterns)) <->
  In r (records state)
  /\ (canonical_type r = "SOA"
      \/ forall p, In p patterns -> fnmatch (Py.lower (name r)) (Py.lower p) = false).
Proof.
  rewrite _filter_records_records, filter_In.
  rewrite !orb_true_iff, negb_true_iff, String.eqb_eq, _matches_pattern_false.
  split; intros [Hin H]; (split; [exact Hin |]).
  - destruct H as [[H | H] | H]; [| now left | now right].
    right. destruct patterns; [intros p [] | discriminate].
  - destruct H as [H | H]; [left; now right | now right].
Qed.


(** C10.  The filter keeps origin and default TTL, keeps the surviving
    records in their order, and decides on each record from the record and
    the patterns alone: it is [filter] with a test fixed by the patterns.
    With no pattern the state comes back as it was. *)
Theorem _filter_records_frame (patterns : list string) :
  (exists keep : DnsRecord -> bool,
     forall state : ZoneState,
       origin (_filter_records fnmatch state patterns) = origin state
       /\ default_ttl (_filter_records fnmatch state patterns) = default_ttl state
       /\ records (_filter_records fnmatch state patterns)
          = filter keep (records state))
  /\ (forall state : ZoneState, _filter_records fnmatch state [] = state).
Proof.
  split; [| reflexivity].
  eexists. intros state. split; [| split].
  - unfold _filter_records. destruct patterns; reflexivity.
  - unfold _filter_records. destruct patterns; reflexivity.
  - apply _filter_records_records.
Qed.

(** An owner name that is absolute already, as a zone transfer delivers
    it, has its lower-cased self for canonical name; on a snapshot of such
    names the filter matches canonical names. *)
Lemma canonical_name_of_absolute (r : DnsRecord) :
  Py.strip (name r) = name r -> name r <> "@" -> Py.endswith (name r) "." = true ->
  canonical_name r = Py.lower (name r).
Proof.
  intros Hs Hat Hdot. unfold canonical_name, _ensure_absolute. rewrite Hs, Hdot.
  destruct (String.eqb_spec (name r) "") as [E | _].
  - rewrite E in Hdot. discriminate.
  - destruct (String.eqb_spec (name r) "@"); [contradiction | reflexivity].
Qed.

Lemma _filter_records_on_absolute_names (state : ZoneState) (patterns : list string)
    (r : DnsRecord) :
  (forall x, In x (records state) ->
     Py.strip (name x) = name x /\ name x <> "@" /\ Py.endswith (name x) "." = true) ->
  In r (records (_filter_records fnmatch state patterns)) <->
  In r (records state)
  /\ (canonical_type r = "SOA"
      \/ forall p, In p patterns -> fnmatch (canonical_name r) (Py.lower p) = false).
Proof.
  intros Habs. rewrite _filter_records_In.
  split; intros [Hin H]; (split; [exact Hin |]);
    destruct (Habs r Hin) as (H1 & H2 & H3);
    rewrite (canonical_name_of_absolute r H1 H2 H3) in *; exact H.
Qed.

End FilterFacts.


Example _filter_records_run :
  _filter_records glob
    (mkZoneState "example.com."
       [sample_soa_record; www_a;
        mkRecord "_acme-challenge.example.com." "TXT" 60 "token" None;
        mkRecord "Example.com." "NS" 3600 "ns1.example.com." None]
       None)
    ["_ACME-challenge.*"; "example.com."]
  = mkZoneState "example.com." [sample_soa_record; www_a] None.
Proof. reflexivity. Qed.


(** ** Diff engine: the order of the keys *)

Section KeyOrder.

Lemma string_compare_refl (x : string) : String_as_OT.compare x x = Eq.
Proof.
  destruct (String_as_OT.compare_spec x x) as [_ | H | H];
    [reflexivity | |]; now apply (StrictOrder_Irreflexive x) in H.
Qed.

Lemma key_lt_alt (a b : OwnerType) :
  key_lt a b <->
  String_as_OT.lt (fst a) (fst b)
  \/ (fst a = fst b /\ String_as_OT.lt (snd a) (snd b)).
Proof.
  unfold key_lt, owner_type_compare.
  destruct (String_as_OT.compare_spec (fst a) (fst b)) as [E | L | G].
  - split.
    + intros H. right. split; [exact E | exact H].
    + intros [L | [_ L]]; [| exact L].
      rewrite E in L. now apply (StrictOrder_Irreflexive (fst b)) in L.
  - split; [intros _; now left | reflexivity].
  - split; [discriminate |].
    intros [L | [E _]].
    + destruct (StrictOrder_Irreflexive (fst a)).
      now apply (StrictOrder_Transitive _ (fst b)).
    + rewrite E in G. now apply (StrictOrder_Irreflexive (fst b)) in G.
Qed.

Lemma key_lt_irrefl (a : OwnerType) : ~ key_lt a a.
Proof.
  rewrite key_lt_alt. intros [H | [_ H]];
    now apply (StrictOrder_Irreflexive (R := String_as_OT.lt)) in H.
Qed.

Lemma key_lt_trans (a b c : OwnerType) : key_lt a b -> key_lt b c -> key_lt a c.
Proof.
  rewrite !key_lt_alt. intros [H1 | [E1 H1]] [H2 | [E2 H2]].
  - left. now apply (StrictOrder_Transitive _ (fst b)).
  - left. now rewrite <- E2.
  - left. now rewrite E1.
  - right. split; [congruence |]. now apply (StrictOrder_Transitive _ (snd b)).
Qed.

Lemma owner_type_compare_eq (a b : OwnerType) :
  owner_type_compare a b = Eq -> a = b.
Proof.
  unfold owner_type_compare. destruct a as [a1 a2], b as [b1 b2]; simpl.
  destruct (String_as_OT.compare_spec a1 b1); try discriminate.
  destruct (String_as_OT.compare_spec a2 b2); try discriminate.
  intros _. congruence.
Qed.

Lemma owner_type_compare_gt (a b : OwnerType) :
  owner_type_compare a b = Gt -> key_lt b a.
Proof.
  rewrite key_lt_alt. unfold owner_type_compare.
  destruct (String_as_OT.compare_spec (fst a) (fst b)) as [E | L | G];
    [| discriminate | intros _; now left].
  destruct (String_as_OT.compare_spec (snd a) (snd b)); try discriminate.
  intros _. right. split; [now symmetry | assumption].
Qed.

Lemma insert_sorted_In (k x : OwnerType) (l : list OwnerType) :
  In x (insert_sorted k l) <-> x = k \/ In x l.
Proof.
  induction l as [|h t IH]; simpl.
  - intuition.
  - destruct (owner_type_compare k h) eqn:E; simpl.
    + apply owner_type_compare_eq in E. subst h. intuition.
    + intuition.
    + rewrite IH. intuition.
Qed.

Lemma insert_sorted_sorted (k : OwnerType) (l : list OwnerType) :
  StronglySorted key_lt l -> StronglySorted key_lt (insert_sorted k l).
Proof.
  induction 1 as [|h t Hs IH Hall]; simpl.
  - repeat constructor.
  - destruct (owner_type_compare k h) eqn:E.
    + now constructor.
    + constructor; [now constructor |].
      constructor; [exact E |].
      rewrite Forall_forall in Hall |- *. intros x Hx.
      apply (key_lt_trans k h x E). now apply Hall.
    + constructor; [exact IH |].
      rewrite Forall_forall in Hall |- *. intros x Hx.
      apply insert_sorted_In in Hx as [-> | Hx]; [| now apply Hall].
      now apply owner_type_compare_gt.
Qed.

Lemma sorted_union_In (a b : list OwnerType) (x : OwnerType) :
  In x (sorted_union a b) <-> In x a \/ In x b.
Proof.
  unfold sorted_union. rewrite <- in_app_iff.
  induction (a ++ b) as [|h t IH]; simpl; [reflexivity |].
  rewrite insert_sorted_In, IH. intuition.
Qed.

Lemma sorted_union_sorted (a b : list OwnerType) :
  StronglySorted key_lt (sorted_union a b).
Proof.
  unfold sorted_union. induction (a ++ b) as [|h t IH]; simpl.
  - constructor.
  - now apply insert_sorted_sorted.
Qed.

(** A strictly increasing list is fixed by its elements. *)
Lemma sorted_unique (l1 l2 : list OwnerType) :
  StronglySorted key_lt l1 -> StronglySorted key_lt l2 ->
  (forall x, In x l1 <-> In x l2) -> l1 = l2.
Proof.
  intros H1. revert l2. induction H1 as [|a l1 Hs1 IH Ha]; intros l2 H2 Heq.
  - destruct l2 as [|b l2]; [reflexivity |]. destruct (proj2 (Heq b)). now left.
  - destruct H2 as [|b l2 Hs2 Hb].
    + destruct (proj1 (Heq a)). now left.
    + rewrite Forall_forall in Ha, Hb.
      assert (a = b) as <-.
      { destruct (proj1 (Heq a) (or_introl eq_refl)) as [E | Hin]; [now symmetry |].
        destruct (proj2 (Heq b) (or_introl eq_refl)) as [E | Hin']; [exact E |].
        destruct (key_lt_irrefl a).
        apply (key_lt_trans a b a); [now apply Ha | now apply Hb]. }
      f_equal. apply IH; [exact Hs2 |].
      intros x. split; intros Hx.
      * destruct (proj1 (Heq x) (or_intror Hx)) as [<- | Hin]; [| exact Hin].
        destruct (key_lt_irrefl a). now apply Ha.
      * destruct (proj2 (Heq x) (or_intror Hx)) as [<- | Hin]; [| exact Hin].
        destruct (key_lt_irrefl a). now apply Hb.
Qed.

(** The sorted keys do not depend on which map comes first. *)
Lemma sorted_union_comm (a b : list OwnerType) :
  sorted_union a b = sorted_union b a.
Proof.
  apply sorted_unique; try apply sorted_union_sorted.
  intros x. rewrite !sorted_union_In. intuition.
Qed.

End KeyOrder.

Example sorted_union_example :
  sorted_union [("www.example.com.", "A"); ("api.example.com.", "TXT")]
               [("api.example.com.", "A"); ("www.example.com.", "A")]
  = [("api.example.com.", "A"); ("api.example.com.", "TXT"); ("www.example.com.", "A")].
Proof. reflexivity. Qed.


(** ** Diff engine: the loops *)

Section DiffLoops.

Lemma fold_scan_desired (current_values desired_values : list (string * DnsRecord))
    (d : ZoneDiff) :
  fold_left (scan_desired current_values) desired_values d
  = mkZoneDiff (added d ++ items_absent current_values desired_values)
      (removed d)
      (ttl_changed d ++ items_retimed current_values desired_values).
Proof.
  revert d. induction desired_values as [|[v r] rest IH]; intros d.
  - destruct d; simpl. now rewrite !app_nil_r.
  - cbn [fold_left]. rewrite IH. unfold scan_desired, items_absent, items_retimed, dict_mem.
    cbn [flat_map fst snd].
    destruct (dict_get String.eqb current_values v) as [c |]; cbn [added removed ttl_changed].
    + destruct (negb (ttl c =? ttl r)%Z); cbn [added removed ttl_changed app];
        now rewrite <- ?app_assoc.
    + now rewrite <- app_assoc.
Qed.

Lemma fold_scan_current (desired_values current_values : list (string * DnsRecord))
    (d : ZoneDiff) :
  fold_left (scan_current desired_values) current_values d
  = mkZoneDiff (added d)
      (removed d ++ items_absent desired_values current_values)
      (ttl_changed d).
Proof.
  revert d. induction current_values as [|[v r] rest IH]; intros d.
  - destruct d; simpl. now rewrite !app_nil_r.
  - cbn [fold_left]. rewrite IH. unfold scan_current, items_absent.
    cbn [flat_map fst snd].
    destruct (dict_mem String.eqb desired_values v); cbn [added removed ttl_changed app].
    + reflexivity.
    + now rewrite <- app_assoc.
Qed.

Lemma fold_diff_key (desired_map current_map : ValueMap) (keys : list OwnerType)
    (d : ZoneDiff) :
  fold_left (diff_key desired_map current_map) keys d
  = mkZoneDiff
      (added d ++ flat_map (fun key => items_absent (get_or_empty current_map key)
                                         (get_or_empty desired_map key)) keys)
      (removed d ++ flat_map (fun key => items_absent (get_or_empty desired_map key)
                                           (get_or_empty current_map key)) keys)
      (ttl_changed d ++ flat_map (fun key => items_retimed (get_or_empty current_map key)
                                               (get_or_empty desired_map key)) keys).
Proof.
  revert d. induction keys as [|key rest IH]; intros d.
  - destruct d; simpl. now rewrite !app_nil_r.
  - cbn [fold_left flat_map]. rewrite IH. unfold diff_key.
    rewrite fold_scan_current, fold_scan_desired. cbn [added removed ttl_changed].
    now rewrite <- !app_assoc.
Qed.

(** The three lists of a diff, key by key in sorted order. *)
Lemma diff_zones_lists (desired current : ZoneState) :
  let desired_map := _build_value_map desired in
  let current_map := _build_value_map current in
  let keys := sorted_union (dict_keys desired_map) (dict_keys current_map) in
  added (diff_zones desired current)
  = flat_map (fun key => items_absent (get_or_empty current_map key)
                           (get_or_empty desired_map key)) keys
  /\ removed (diff_zones desired current)
     = flat_map (fun key => items_absent (get_or_empty desired_map key)
                              (get_or_empty current_map key)) keys
  /\ ttl_changed (diff_zones desired current)
     = flat_map (fun key => items_retimed (get_or_empty current_map key)
                              (get_or_empty desired_map key)) keys.
Proof.
  cbv zeta. unfold diff_zones. rewrite fold_diff_key. repeat split.
Qed.

End DiffLoops.

(** C6.  For all zone states A and B (with identical origin or not), the
    records that [diff_zones A B] adds are, as a list, the records that
    [diff_zones B A] removes, and the other way round. *)
Theorem diff_zones_symmetry (A B : ZoneState) :
  added (diff_zones A B) = removed (diff_zones B A)
  /\ removed (diff_zones A B) = added (diff_zones B A).
Proof.
  destruct (diff_zones_lists A B) as (Ha & Hr & _).
  destruct (diff_zones_lists B A) as (Ha' & Hr' & _).
  rewrite Ha, Hr, Ha', Hr'.
  rewrite (sorted_union_comm (dict_keys (_build_value_map B))).
  split; reflexivity.
Qed.

(** The design document's own examples. *)
Example diff_ttl_only :
  diff_zones
    (mkZoneState "example.com." [mkRecord "www" "A" 300 "1.2.3.4" None] None)
    (mkZoneState "example.com." [mkRecord "www" "A" 600 "1.2.3.4" None] None)
  = mkZoneDiff [] []
      [(mkRecord "www" "A" 600 "1.2.3.4" None, mkRecord "www" "A" 300 "1.2.3.4" None)].
Proof. reflexivity. Qed.

Example diff_value_set :
  diff_zones
    (mkZoneState "example.com." [mkRecord "www" "A" 300 "1.1.1.1" None] None)
    (mkZoneState "example.com."
       [mkRecord "www" "A" 300 "1.1.1.1" None; mkRecord "www" "A" 300 "2.2.2.2" None]
       None)
  = mkZoneDiff [] [mkRecord "www" "A" 300 "2.2.2.2" None] [].
Proof. reflexivity. Qed.

Example diff_sorted_and_soa_free :
  diff_zones
    (mkZoneState "example.com."
       [mkRecord "www.example.com." "A" 300 "192.0.2.1" None;
        mkRecord "example.com." "soa" 300 "a. b. 1 2 3 4 5" None;
        mkRecord "API.example.com." "cname" 300 "WWW.example.com" None;
        mkRecord "example.com." "MX" 300 "mail.example.com." (Some 10%Z)]
       None)
    sample_current
  = mkZoneDiff
      [mkRecord "API.example.com." "cname" 300 "WWW.example.com" None;
       mkRecord "example.com." "MX" 300 "mail.example.com." (Some 10%Z);
       mkRecord "www.example.com." "A" 300 "192.0.2.1" None]
      [www_a] [].
Proof. reflexivity. Qed.

(** ** Diff engine: what the value maps hold *)

Section ValueMaps.

Lemma owner_type_eqb_eq (a b : OwnerType) : owner_type_eqb a b = true -> a = b.
Proof.
  unfold owner_type_eqb. rewrite andb_true_iff, !String.eqb_eq.
  destruct a, b; simpl. intros [-> ->]. reflexivity.
Qed.

Lemma dict_get_In {K V : Type} (eqb : K -> K -> bool) (d : list (K * V)) (k : K) (v : V) :
  (forall a b, eqb a b = true -> a = b) ->
  dict_get eqb d k = Some v -> In (k, v) d.
Proof.
  intros Heq. induction d as [|[k' v'] d IH]; simpl; [discriminate |].
  destruct (eqb k k') eqn:E.
  - intros [= ->]. apply Heq in E. subst. now left.
  - intros H. right. now apply IH.
Qed.

Lemma dict_set_In {K V : Type} (eqb : K -> K -> bool) (d : list (K * V))
    (k k0 : K) (v v0 : V) :
  (forall a b, eqb a b = true -> a = b) ->
  In (k, v) (dict_set eqb d k0 v0) -> In (k, v) d \/ (k = k0 /\ v = v0).
Proof.
  intros Heq. induction d as [|[k' v'] d IH]; simpl.
  - intros [[= <- <-] | []]. now right.
  - destruct (eqb k0 k') eqn:E; simpl.
    + apply Heq in E. subst k'. intros [[= <- <-] | H]; [now right | left; now right].
    + intros [H | H]; [left; now left |].
      destruct (IH H) as [H' | H']; [left; now right | now right].
Qed.

Lemma string_eqb_true (a b : string) : String.eqb a b = true -> a = b.
Proof. apply String.eqb_eq. Qed.

Lemma _build_value_map_ok (state : ZoneState) : map_ok state (_build_value_map state).
Proof.
  unfold _build_value_map.
  assert (Hgen : forall recs index,
            (forall r, In r recs -> In r (records state)) ->
            map_ok state index ->
            map_ok state
              (fold_left
                 (fun index record =>
                    if String.eqb (canonical_type record) "SOA" then index
                    else
                      dict_set owner_type_eqb index
                        (canonical_name record, canonical_type record)
                        (dict_set String.eqb
                           match dict_get owner_type_eqb index
                                   (canonical_name record, canonical_type record) with
                           | Some d => d
                           | None => []
                           end (canonical_value record) record))
                 recs index)).
  { induction recs as [|r recs IH]; intros index Hsub Hok; [exact Hok |].
    cbn [fold_left]. apply IH; [intros x Hx; apply Hsub; now right |].
    destruct (String.eqb_spec (canonical_type r) "SOA") as [_ | Hns]; [exact Hok |].
    intros k inner item Hin Hitem.
    apply (dict_set_In _ _ _ _ _ _ owner_type_eqb_eq) in Hin as [Hin | [-> ->]].
    - exact (Hok k inner item Hin Hitem).
    - destruct item as [v x].
      apply (dict_set_In _ _ _ _ _ _ string_eqb_true) in Hitem as [Hitem | [-> ->]].
      + match type of Hitem with
        | In _ (match ?g with _ => _ end) => destruct g as [d |] eqn:E
        end; [| destruct Hitem].
        apply (dict_get_In _ _ _ _ owner_type_eqb_eq) in E.
        exact (Hok _ d (v, x) E Hitem).
      + repeat split; simpl; [apply Hsub; now left | exact Hns]. }
  apply Hgen; [auto |]. intros k inner item H. simpl in H. contradiction.
Qed.

Lemma get_or_empty_ok (state : ZoneState) (k : OwnerType) (item : string * DnsRecord) :
  In item (get_or_empty (_build_value_map state) k) -> entry_ok state k item.
Proof.
  unfold get_or_empty.
  destruct (dict_get owner_type_eqb (_build_value_map state) k) as [d |] eqn:E;
    [| intros []].
  apply (dict_get_In _ _ _ _ owner_type_eqb_eq) in E.
  exact (_build_value_map_ok state k d item E).
Qed.

Lemma items_absent_In (other mine : list (string * DnsRecord)) (r : DnsRecord) :
  In r (items_absent other mine) -> exists v, In (v, r) mine.
Proof.
  unfold items_absent. rewrite in_flat_map. intros ([v x] & Hin & H). simpl in H.
  destruct (dict_mem String.eqb other v); [destruct H |].
  destruct H as [<- | []]. now exists v.
Qed.

Lemma items_retimed_In (theirs mine : list (string * DnsRecord)) (b a : DnsRecord) :
  In (b, a) (items_retimed theirs mine) ->
  exists v, In (v, b) theirs /\ In (v, a) mine /\ ttl b <> ttl a.
Proof.
  unfold items_retimed. rewrite in_flat_map. intros ([v x] & Hin & H). simpl in H.
  destruct (dict_get String.eqb theirs v) as [c |] eqn:E; [| destruct H].
  destruct (Z.eqb_spec (ttl c) (ttl x)) as [| Hne]; simpl in H; [destruct H |].
  destruct H as [[= <- <-] | []]. exists v.
  split; [now apply (dict_get_In _ _ _ _ string_eqb_true) | split; assumption].
Qed.

(** Where the entries of a diff come from. *)
Lemma added_origin (desired current : ZoneState) (r : DnsRecord) :
  In r (added (diff_zones desired current)) ->
  In r (records desired) /\ canonical_type r <> "SOA".
Proof.
  destruct (diff_zones_lists desired current) as (-> & _ & _).
  rewrite in_flat_map. intros (k & _ & H).
  apply items_absent_In in H as [v H]. apply get_or_empty_ok in H.
  destruct H as (H1 & H2 & _). split; assumption.
Qed.

Lemma removed_origin (desired current : ZoneState) (r : DnsRecord) :
  In r (removed (diff_zones desired current)) ->
  In r (records current) /\ canonical_type r <> "SOA".
Proof.
  destruct (diff_zones_lists desired current) as (_ & -> & _).
  rewrite in_flat_map. intros (k & _ & H).
  apply items_absent_In in H as [v H]. apply get_or_empty_ok in H.
  destruct H as (H1 & H2 & _). split; assumption.
Qed.

Lemma ttl_changed_origin (desired current : ZoneState) (before after : DnsRecord) :
  In (before, after) (ttl_changed (diff_zones desired current)) ->
  (In before (records current) /\ canonical_type before <> "SOA")
  /\ (In after (records desired) /\ canonical_type after <> "SOA")
  /\ key before = key after
  /\ ttl before <> ttl after.
Proof.
  destruct (diff_zones_lists desired current) as (_ & _ & ->).
  rewrite in_flat_map. intros (k & _ & H).
  apply items_retimed_In in H as (v & Hb & Ha & Httl).
  apply get_or_empty_ok in Hb, Ha.
  destruct Hb as (Hb1 & Hb2 & Hb3 & Hb4), Ha as (Ha1 & Ha2 & Ha3 & Ha4).
  simpl in *. repeat split; try assumption.
  unfold key. congruence.
Qed.

End ValueMaps.

(** C7.  Whatever the two states hold, and however many SOA records are
    among them, no record of canonical type SOA is in [added], in
    [removed], or on either side of a pair of [ttl_changed]. *)
Theorem diff_zones_no_soa (desired current : ZoneState) :
  Forall (fun r => canonical_type r <> "SOA") (added (diff_zones desired current))
  /\ Forall (fun r => canonical_type r <> "SOA") (removed (diff_zones desired current))
  /\ Forall (fun pair => canonical_type (fst pair) <> "SOA"
                         /\ canonical_type (snd pair) <> "SOA")
       (ttl_changed (diff_zones desired current)).
Proof.
  rewrite !Forall_forall. repeat split.
  - intros r H. now apply added_origin in H.
  - intros r H. now apply removed_origin in H.
  - destruct x as [b a]. apply ttl_changed_origin in H. simpl. tauto.
  - destruct x as [b a]. apply ttl_changed_origin in H. simpl. tauto.
Qed.


(** ** Plan and apply *)

Example plan_unchanged :
  plan glob sample_render_zone sample_clock sample_config sample_desired sample_current
  = inr unchanged_plan.
Proof. reflexivity. Qed.

Example plan_api :
  plan glob sample_render_zone sample_clock sample_config
    (mkDesiredZone (mkZoneState "example.com." [api_600] None) None [])
    (mkZoneState "example.com." [api_300] None)
  = inr api_plan.
Proof. reflexivity. Qed.

(** C1.  A plan whose diff has no changes is applied by doing nothing:
    for either value of [assume_yes] the run ends without an exception
    and its journal holds one log line and no prompt, no write, no command
    (validation, reload, commit) and no update. *)
Theorem apply_unchanged_is_noop (w : World) (config : AppConfig)
    (plan_result : PlanResult) (assume_yes : bool) :
  has_changes (diff plan_result) = false ->
  apply w config plan_result assume_yes
  = ([LogInfo "No changes detected; nothing to apply."], inr tt)
  /\ side_effects (fst (apply w config plan_result assume_yes)) = [].
Proof.
  intros H. unfold apply. rewrite H. split; reflexivity.
Qed.

(** Applying the unchanged sample plan, once more or with [--yes]. *)
Lemma apply_unchanged_is_noop_witness :
  apply sample_world sample_config unchanged_plan false
  = ([LogInfo "No changes detected; nothing to apply."], inr tt)
  /\ side_effects (fst (apply sample_world sample_config unchanged_plan false)) = [].
Proof.
  apply (apply_unchanged_is_noop sample_world sample_config unchanged_plan false).
  reflexivity.
Defined.

(** A changed plan, for contrast: prompt, write, validation, update. *)
Example apply_api_dynamic :
  apply sample_world sample_config api_plan false
  = ([Input "Apply changes to example.com.? [y/N]: ";
      MkdirParents "zones/example.com.zone";
      WriteText "zones/example.com.zone" "$ORIGIN example.com.";
      LogInfo "Wrote zone file to zones/example.com.zone";
      LogInfo "Running named-checkzone example.com. zones/example.com.zone";
      Run ["named-checkzone"; "example.com."; "zones/example.com.zone"];
      LogInfo "Sending dynamic update: 0 additions, 0 removals, 1 ttl changes";
      QueryTcp "127.0.0.1" 53 "example.com."
        [OpDelete "api" "A" "9.9.9.9"; OpAdd "api" 600 "A" "9.9.9.9"];
      LogInfo "Apply complete for example.com."],
     inr tt).
Proof. reflexivity. Qed.

(** ** Dynamic updates *)

Ltac unfold_apply :=
  unfold apply, _write_zone_file, _confirm, _maybe_run_named_checkzone, _reload_zone,
    _apply_dynamic_updates, is_git_repo, auto_commit, run_checked, lift, bind, emit,
    ret, raise.

(** Case analysis on every test that a run of [apply] makes. *)
Ltac split_run :=
  repeat (cbn [fst snd app negb andb orb is_nil];
    match goal with
    | |- context [if ?b then _ else _] =>
        lazymatch b with
        | context [if _ then _ else _] => fail
        | context [match _ with _ => _ end] => fail
        | _ => destruct b eqn:?
        end
    | |- context [match ?x with inl _ => _ | inr _ => _ end] =>
        lazymatch x with
        | context [if _ then _ else _] => fail
        | context [match _ with _ => _ end] => fail
        | _ => destruct x eqn:?
        end
    | |- context [match ?x with Some _ => _ | None => _ end] =>
        lazymatch x with
        | context [if _ then _ else _] => fail
        | context [match _ with _ => _ end] => fail
        | _ => destruct x eqn:?
        end
    end).

Ltac cases_of_In H :=
  cbn [fst snd app In] in H;
  repeat match type of H with
         | _ \/ _ => destruct H as [H | H]
         end.

Section UpdateOrder.

Lemma update_operations_split (d : ZoneDiff) :
  exists deletes adds,
    update_operations d = deletes ++ adds
    /\ length deletes = (length (removed d) + length (ttl_changed d))%nat
    /\ Forall (fun op => is_delete op = true) deletes
    /\ Forall (fun op => is_delete op = false) adds.
Proof.
  unfold update_operations. do 2 eexists. rewrite app_assoc.
  split; [reflexivity |]. split; [now rewrite length_app, !length_map |].
  split; rewrite Forall_app, !Forall_forall; split; intros op Hop;
    apply in_map_iff in Hop as (x & <- & _); try destruct x; reflexivity.
Qed.

Lemma nth_error_Forall {A : Type} (P : A -> Prop) (l : list A) (i : nat) (x : A) :
  Forall P l -> nth_error l i = Some x -> P x.
Proof. rewrite Forall_forall. intros H E. apply H. now apply nth_error_In in E. Qed.

Lemma deletes_before_adds (d : ZoneDiff) (i j : nat) (x y : UpdateOp) :
  nth_error (update_operations d) i = Some x -> is_delete x = true ->
  nth_error (update_operations d) j = Some y -> is_delete y = false ->
  (i < j)%nat.
Proof.
  destruct (update_operations_split d) as (ds & adds & -> & _ & Hd & Ha).
  intros Hi Hx Hj Hy.
  destruct (Nat.lt_ge_cases i (length ds)) as [Hlt | Hge].
  - destruct (Nat.lt_ge_cases j (length ds)) as [Hlt' | Hge']; [| lia].
    rewrite nth_error_app1 in Hj by exact Hlt'.
    apply (nth_error_Forall _ _ _ _ Hd) in Hj. congruence.
  - rewrite nth_error_app2 in Hi by exact Hge.
    apply (nth_error_Forall _ _ _ _ Ha) in Hi. congruence.
Qed.

Lemma ttl_change_operations (d : ZoneDiff) (k : nat) (before after : DnsRecord) :
  nth_error (ttl_changed d) k = Some (before, after) ->
  nth_error (update_operations d) (length (removed d) + k)
  = Some (OpDelete (name before) (type before) (value before))
  /\ nth_error (update_operations d)
       (length (removed d) + length (ttl_changed d) + length (added d) + k)
     = Some (OpAdd (name after) (ttl after) (type after) (value after)).
Proof.
  intros H. unfold update_operations. split.
  - rewrite nth_error_app2 by (rewrite length_map; lia).
    rewrite length_map, Nat.add_comm, Nat.add_sub.
    rewrite nth_error_app1
      by (rewrite length_map; apply nth_error_Some; congruence).
    now rewrite nth_error_map, H.
  - rewrite nth_error_app2 by (rewrite length_map; lia).
    rewrite nth_error_app2 by (rewrite !length_map; lia).
    rewrite nth_error_app2 by (rewrite !length_map; lia).
    rewrite !length_map.
    replace (length (removed d) + length (ttl_changed d) + length (added d) + k
             - length (removed d) - length (ttl_changed d) - length (added d))%nat
      with k by lia.
    now rewrite nth_error_map, H.
Qed.

Lemma submitted_batch (w : World) (config : AppConfig) (plan_result : PlanResult)
    (server : string) (port : Z) (zone : string) (batch : list UpdateOp) :
  In (QueryTcp server port zone batch)
     (fst (_apply_dynamic_updates w config plan_result)) ->
  batch = update_operations (diff plan_result).
Proof.
  unfold _apply_dynamic_updates.
  destruct (dnspython_installed w); simpl; [| intros []].
  destruct (is_nil (added (diff plan_result)) && is_nil (removed (diff plan_result))
            && is_nil (ttl_changed (diff plan_result))); simpl.
  - intros [H | []]. discriminate H.
  - destruct (update_build_error w config _ _); simpl; [intros [] |].
    destruct (update_response w config _ _) as [e | rcode]; simpl.
    + intros [H | [H | []]]; [discriminate H | now inversion H].
    + destruct (rcode =? 0)%Z; simpl;
        (intros [H | [H | []]]; [discriminate H | now inversion H]).
Qed.

Lemma _apply_dynamic_updates_journal (w : World) (config : AppConfig)
    (plan_result : PlanResult) :
  dnspython_installed w = true ->
  has_changes (diff plan_result) = true ->
  update_build_error w config (origin (desired plan_result))
    (update_operations (diff plan_result)) = None ->
  fst (_apply_dynamic_updates w config plan_result)
  = [LogInfo ("Sending dynamic update: " ++ count_text (added (diff plan_result))
              ++ " additions, " ++ count_text (removed (diff plan_result))
              ++ " removals, " ++ count_text (ttl_changed (diff plan_result))
              ++ " ttl changes");
     QueryTcp (bind_server config) (bind_port config) (origin (desired plan_result))
       (update_operations (diff plan_result))].
Proof.
  intros Hd Hc Hb. unfold _apply_dynamic_updates. rewrite Hd. cbn [negb].
  assert (Hnil : is_nil (added (diff plan_result)) && is_nil (removed (diff plan_result))
                 && is_nil (ttl_changed (diff plan_result)) = false).
  { unfold has_changes in Hc.
    destruct (is_nil (added (diff plan_result))), (is_nil (removed (diff plan_result))),
      (is_nil (ttl_changed (diff plan_result))); try reflexivity; discriminate Hc. }
  rewrite Hnil. cbv zeta. rewrite Hb. unfold bind, emit, lift, ret, raise.
  destruct (update_response w config _ _) as [e | rcode]; [reflexivity |].
  destruct (rcode =? 0)%Z; reflexivity.
Qed.

Lemma apply_updates_sent (w : World) (config : AppConfig) (plan_result : PlanResult)
    (assume_yes : bool) :
  String.eqb (apply_strategy config) "zone" = false ->
  has_changes (diff plan_result) = true ->
  assume_yes || mem_str (Py.lower (Py.strip (input_line w))) ["y"; "yes"] = true ->
  String.eqb (named_checkzone_bin config) "" = true
  \/ exit_zero w [named_checkzone_bin config; origin (desired plan_result);
                  output_path (render plan_result)] = true ->
  dnspython_installed w = true ->
  update_build_error w config (origin (desired plan_result))
    (update_operations (diff plan_result)) = None ->
  updates_sent (fst (apply w config plan_result assume_yes))
  = [QueryTcp (bind_server config) (bind_port config) (origin (desired plan_result))
       (update_operations (diff plan_result))].
Proof.
  intros Hz Hc Hyes Hcheck Hd Hb. unfold updates_sent. unfold_apply.
  rewrite Hc, Hz, Hd, Hb.
  assert (Hnil : is_nil (added (diff plan_result)) && is_nil (removed (diff plan_result))
                 && is_nil (ttl_changed (diff plan_result)) = false).
  { unfold has_changes in Hc.
    destruct (is_nil (added (diff plan_result))), (is_nil (removed (diff plan_result))),
      (is_nil (ttl_changed (diff plan_result))); try reflexivity; discriminate Hc. }
  rewrite Hnil.
  split_run; cbn [fst snd app filter is_update]; try reflexivity;
    try solve [destruct Hcheck; congruence];
    try solve [match goal with
               | H : negb _ = true |- _ =>
                   apply negb_true_iff in H; rewrite H in Hyes;
                   cbn in Hyes; discriminate Hyes
               end].
Qed.

End UpdateOrder.

(** C5.  Under the dynamic strategy a run of [apply] that reaches the
    update step (a changed and confirmed plan, the validation passed,
    dnspython at hand, the message built) sends exactly one update, to the
    configured server and port for the zone, and its batch is the list
    [update_operations] of the plan's diff; [_apply_dynamic_updates]
    emits the log line and that update, and never another batch.  In the
    batch emitted every delete stands before every add; the pair at
    position [k] of [ttl_changed] contributes the delete of the old record
    at position [k] after the removals and, later, the add of the new
    record with the new TTL (the two records of a pair that [diff_zones]
    reports have one identity key, so one canonical value, and different
    TTLs); and for a plan whose diff is one TTL change of
    (api, A, "9.9.9.9") from 300 to 600 the update emitted carries exactly
    the delete followed by the add with TTL 600. *)
Theorem dynamic_update_order (w : World) (config : AppConfig) (plan_result : PlanResult) :
  let ops := update_operations (diff plan_result) in
  let zone := origin (desired plan_result) in
  let sent := QueryTcp (bind_server config) (bind_port config) zone ops in
  (dnspython_installed w = true ->
   has_changes (diff plan_result) = true ->
   update_build_error w config zone ops = None ->
   fst (_apply_dynamic_updates w config plan_result)
   = [LogInfo ("Sending dynamic update: " ++ count_text (added (diff plan_result))
               ++ " additions, " ++ count_text (removed (diff plan_result))
               ++ " removals, " ++ count_text (ttl_changed (diff plan_result))
               ++ " ttl changes");
      sent])
  /\ (forall assume_yes,
        String.eqb (apply_strategy config) "zone" = false ->
        has_changes (diff plan_result) = true ->
        assume_yes || mem_str (Py.lower (Py.strip (input_line w))) ["y"; "yes"] = true ->
        String.eqb (named_checkzone_bin config) "" = true
        \/ exit_zero w [named_checkzone_bin config; zone;
                        output_path (render plan_result)] = true ->
        dnspython_installed w = true ->
        update_build_error w config zone ops = None ->
        updates_sent (fst (apply w config plan_result assume_yes)) = [sent])
  /\ (forall server port zone batch,
        In (QueryTcp server port zone batch)
           (fst (_apply_dynamic_updates w config plan_result)) ->
        batch = ops)
  /\ (forall i j owner rtype rdata owner' rttl rtype' rdata',
        nth_error ops i = Some (OpDelete owner rtype rdata) ->
        nth_error ops j = Some (OpAdd owner' rttl rtype' rdata') ->
        (i < j)%nat)
  /\ (forall k before after,
        nth_error (ttl_changed (diff plan_result)) k = Some (before, after) ->
        nth_error ops (length (removed (diff plan_result)) + k)
        = Some (OpDelete (name before) (type before) (value before))
        /\ nth_error ops (length (removed (diff plan_result))
                          + length (ttl_changed (diff plan_result))
                          + length (added (diff plan_result)) + k)
           = Some (OpAdd (name after) (ttl after) (type after) (value after)))
  /\ (forall desired current before after,
        In (before, after) (ttl_changed (diff_zones desired current)) ->
        key before = key after /\ ttl before <> ttl after)
  /\ (forall p q,
        update_operations
          (mkZoneDiff [] [] [(mkRecord "api" "A" 300 "9.9.9.9" p,
                              mkRecord "api" "A" 600 "9.9.9.9" q)])
        = [OpDelete "api" "A" "9.9.9.9"; OpAdd "api" 600 "A" "9.9.9.9"])
  /\ (forall p q,
        diff plan_result
        = mkZoneDiff [] [] [(mkRecord "api" "A" 300 "9.9.9.9" p,
                             mkRecord "api" "A" 600 "9.9.9.9" q)] ->
        dnspython_installed w = true ->
        update_build_error w config zone
          [OpDelete "api" "A" "9.9.9.9"; OpAdd "api" 600 "A" "9.9.9.9"] = None ->
        fst (_apply_dynamic_updates w config plan_result)
        = [LogInfo "Sending dynamic update: 0 additions, 0 removals, 1 ttl changes";
           QueryTcp (bind_server config) (bind_port config) zone
             [OpDelete "api" "A" "9.9.9.9"; OpAdd "api" 600 "A" "9.9.9.9"]]).
Proof.
  cbv zeta. repeat match goal with |- _ /\ _ => split end.
  - apply _apply_dynamic_updates_journal.
  - intros assume_yes. apply apply_updates_sent.
  - intros server port zone batch. apply submitted_batch.
  - intros i j o t v o' l' t' v' Hi Hj.
    exact (deletes_before_adds _ i j _ _ Hi eq_refl Hj eq_refl).
  - intros k before after. apply ttl_change_operations.
  - intros desired current before after H.
    apply ttl_changed_origin in H. tauto.
  - reflexivity.
  - intros p q Hdiff Hd Hb.
    rewrite (_apply_dynamic_updates_journal w config plan_result Hd).
    + rewrite Hdiff. reflexivity.
    + rewrite Hdiff. reflexivity.
    + rewrite Hdiff. exact Hb.
Qed.

(** The TTL change of the sample plan: what the update step emits, what a
    confirmed run of [apply] sends, and where the pair stands in the
    batch. *)
Lemma dynamic_update_order_witness :
  fst (_apply_dynamic_updates sample_world sample_config api_plan)
  = [LogInfo "Sending dynamic update: 0 additions, 0 removals, 1 ttl changes";
     QueryTcp "127.0.0.1" 53 "example.com."
       [OpDelete "api" "A" "9.9.9.9"; OpAdd "api" 600 "A" "9.9.9.9"]]
  /\ updates_sent (fst (apply sample_world sample_config api_plan false))
     = [QueryTcp "127.0.0.1" 53 "example.com."
          [OpDelete "api" "A" "9.9.9.9"; OpAdd "api" 600 "A" "9.9.9.9"]]
  /\ nth_error (update_operations (diff api_plan)) 0 = Some (OpDelete "api" "A" "9.9.9.9")
  /\ nth_error (update_operations (diff api_plan)) 1
     = Some (OpAdd "api" 600 "A" "9.9.9.9").
Proof.
  destruct (dynamic_update_order sample_world sample_config api_plan)
    as (_ & Hrun & _ & _ & Hpair & _ & _ & Hemit).
  split; [exact (Hemit None None eq_refl eq_refl eq_refl) |].
  split; [exact (Hrun false eq_refl eq_refl eq_refl (or_intror eq_refl) eq_refl eq_refl) |].
  apply (Hpair 0%nat api_300 api_600). reflexivity.
Defined.


(* ===================================================================== *)
(** * Further properties of the code *)
(* ===================================================================== *)

(** ** Characters and blanks *)

Section CharFacts.

Lemma is_space_lower_char (c : ascii) : Py.is_space (Py.lower_char c) = Py.is_space c.
Proof. destruct c as [[] [] [] [] [] [] [] []]; reflexivity. Qed.

Lemma is_space_upper_char (c : ascii) : Py.is_space (Py.upper_char c) = Py.is_space c.
Proof. destruct c as [[] [] [] [] [] [] [] []]; reflexivity. Qed.

Lemma lower_char_idem (c : ascii) : Py.lower_char (Py.lower_char c) = Py.lower_char c.
Proof. destruct c as [[] [] [] [] [] [] [] []]; reflexivity. Qed.

Lemma lower_upper_char (c : ascii) : Py.lower_char (Py.upper_char c) = Py.lower_char c.
Proof. destruct c as [[] [] [] [] [] [] [] []]; reflexivity. Qed.

Lemma upper_char_idem (c : ascii) : Py.upper_char (Py.upper_char c) = Py.upper_char c.
Proof. destruct c as [[] [] [] [] [] [] [] []]; reflexivity. Qed.

Lemma map_chars_append (f : ascii -> ascii) (a b : string) :
  Py.map_chars f (a ++ b) = (Py.map_chars f a ++ Py.map_chars f b)%string.
Proof. induction a as [|c a IH]; simpl; [reflexivity | now rewrite IH]. Qed.

Lemma map_chars_compose (f g h : ascii -> ascii) (s : string) :
  (forall c, f (g c) = h c) ->
  Py.map_chars f (Py.map_chars g s) = Py.map_chars h s.
Proof.
  intros H. induction s as [|c s IH]; simpl; [reflexivity | now rewrite H, IH].
Qed.

Lemma lower_idem (s : string) : Py.lower (Py.lower s) = Py.lower s.
Proof. apply map_chars_compose, lower_char_idem. Qed.

Lemma lower_upper (s : string) : Py.lower (Py.upper s) = Py.lower s.
Proof. apply map_chars_compose, lower_upper_char. Qed.

Lemma upper_idem (s : string) : Py.upper (Py.upper s) = Py.upper s.
Proof. apply map_chars_compose, upper_char_idem. Qed.

Lemma map_chars_empty (f : ascii -> ascii) (s : string) :
  Py.map_chars f s = "" <-> s = "".
Proof. destruct s; simpl; split; intros H; solve [reflexivity | discriminate]. Qed.

(** Changing the case of letters moves no blank. *)
Lemma lstrip_map_chars (f : ascii -> ascii) (s : string) :
  (forall c, Py.is_space (f c) = Py.is_space c) ->
  Py.lstrip (Py.map_chars f s) = Py.map_chars f (Py.lstrip s).
Proof.
  intros H. induction s as [|c s IH]; simpl; [reflexivity |].
  rewrite H. destruct (Py.is_space c); [exact IH | reflexivity].
Qed.

Lemma rstrip_map_chars (f : ascii -> ascii) (s : string) :
  (forall c, Py.is_space (f c) = Py.is_space c) ->
  Py.rstrip (Py.map_chars f s) = Py.map_chars f (Py.rstrip s).
Proof.
  intros H. induction s as [|c s IH]; simpl; [reflexivity |].
  rewrite IH, H. destruct (Py.rstrip s); simpl; [| reflexivity].
  destruct (Py.is_space c); reflexivity.
Qed.

Lemma strip_map_chars (f : ascii -> ascii) (s : string) :
  (forall c, Py.is_space (f c) = Py.is_space c) ->
  Py.strip (Py.map_chars f s) = Py.map_chars f (Py.strip s).
Proof.
  intros H. unfold Py.strip. now rewrite lstrip_map_chars, rstrip_map_chars.
Qed.

Lemma strip_lower_comm (s : string) : Py.strip (Py.lower s) = Py.lower (Py.strip s).
Proof. apply strip_map_chars, is_space_lower_char. Qed.

Lemma strip_upper_comm (s : string) : Py.strip (Py.upper s) = Py.upper (Py.strip s).
Proof. apply strip_map_chars, is_space_upper_char. Qed.

(** A string starts clean when it does not start with a blank. *)
Lemma lstrip_clean (s : string) :
  match s with EmptyString => True | String c _ => Py.is_space c = false end ->
  Py.lstrip s = s.
Proof. destruct s as [|c s]; simpl; [reflexivity | now intros ->]. Qed.

Lemma lstrip_starts_clean (s : string) :
  match Py.lstrip s with EmptyString => True | String c _ => Py.is_space c = false end.
Proof.
  induction s as [|c s IH]; simpl; [exact I |].
  destruct (Py.is_space c) eqn:E; [exact IH | exact E].
Qed.

Lemma rstrip_starts_clean (s : string) :
  match s with EmptyString => True | String c _ => Py.is_space c = false end ->
  match Py.rstrip s with EmptyString => True | String c _ => Py.is_space c = false end.
Proof.
  destruct s as [|c s]; simpl; [trivial |]. intros E.
  destruct (Py.rstrip s); [rewrite E |]; exact E.
Qed.

Lemma rstrip_idem (s : string) : Py.rstrip (Py.rstrip s) = Py.rstrip s.
Proof.
  induction s as [|c s IH]; simpl; [reflexivity |].
  destruct (Py.rstrip s) as [|d r] eqn:E.
  - destruct (Py.is_space c) eqn:Ec; simpl; [reflexivity | now rewrite Ec].
  - simpl in *. now rewrite IH.
Qed.

Lemma lstrip_strip (s : string) : Py.lstrip (Py.strip s) = Py.strip s.
Proof. apply lstrip_clean, rstrip_starts_clean, lstrip_starts_clean. Qed.

Lemma strip_idem (s : string) : Py.strip (Py.strip s) = Py.strip s.
Proof. unfold Py.strip at 1. rewrite lstrip_strip. apply rstrip_idem. Qed.

Lemma rstrip_append_dot (s : string) : Py.rstrip (s ++ ".") = (s ++ ".")%string.
Proof.
  induction s as [|c s IH]; [reflexivity |].
  cbn [append Py.rstrip]. rewrite IH. destruct s; reflexivity.
Qed.

Lemma strip_append_dot (s : string) :
  Py.strip s = s -> s <> "" -> Py.strip (s ++ ".") = (s ++ ".")%string.
Proof.
  intros Hs Hne. unfold Py.strip.
  assert (Hc : match s with
               | EmptyString => True
               | String c _ => Py.is_space c = false
               end).
  { rewrite <- Hs. exact (rstrip_starts_clean _ (lstrip_starts_clean s)). }
  rewrite (lstrip_clean (s ++ ".")); [apply rstrip_append_dot |].
  destruct s as [|c s]; [contradiction | exact Hc].
Qed.

Lemma endswith_append (a b : string) : Py.endswith (a ++ b) b = true.
Proof. apply endswith_iff. now exists a. Qed.

Lemma endswith_map_chars (f : ascii -> ascii) (s suffix : string) :
  Py.endswith s suffix = true ->
  Py.endswith (Py.map_chars f s) (Py.map_chars f suffix) = true.
Proof.
  intros H. apply endswith_iff in H as [pre ->]. rewrite map_chars_append.
  apply endswith_append.
Qed.

End CharFacts.

(** ** Canonical names *)

Section CanonicalForms.

(** An absolute name: stripped, and closed by a dot. *)
Lemma _ensure_absolute_fixed (y : string) :
  Py.strip y = y -> Py.endswith y "." = true -> _ensure_absolute y = y.
Proof.
  intros Hs Hd. unfold _ensure_absolute. rewrite Hs, Hd.
  destruct (String.eqb_spec y "") as [-> | _]; [discriminate Hd |].
  destruct (String.eqb_spec y "@") as [-> | _]; [discriminate Hd | reflexivity].
Qed.

Lemma _ensure_absolute_shape (x : string) :
  Py.strip (_ensure_absolute x) = _ensure_absolute x
  /\ Py.endswith (_ensure_absolute x) "." = true.
Proof.
  unfold _ensure_absolute.
  destruct (String.eqb_spec (Py.strip x) ""); [split; reflexivity |].
  destruct (String.eqb_spec (Py.strip x) "@"); [split; reflexivity |].
  destruct (Py.endswith (Py.strip x) ".") eqn:E.
  - split; [apply strip_idem | exact E].
  - split; [apply strip_append_dot; [apply strip_idem | assumption]
           | apply endswith_append].
Qed.

Lemma canonical_name_shape (r : DnsRecord) :
  Py.strip (canonical_name r) = canonical_name r
  /\ Py.endswith (canonical_name r) "." = true.
Proof.
  unfold canonical_name.
  destruct (_ensure_absolute_shape (name r)) as [Hs Hd]. split.
  - rewrite strip_lower_comm. now rewrite Hs.
  - exact (endswith_map_chars Py.lower_char _ "." Hd).
Qed.

End CanonicalForms.

(** X1.  Canonicalisation is idempotent: making an absolute name absolute
    again changes nothing, and a record named by its own canonical name
    has that same canonical name. *)
Theorem canonical_name_idempotent (r : DnsRecord) (x : string) :
  _ensure_absolute (_ensure_absolute x) = _ensure_absolute x
  /\ canonical_name
       (mkRecord (canonical_name r) (type r) (ttl r) (value r) (priority r))
     = canonical_name r.
Proof.
  split.
  - destruct (_ensure_absolute_shape x) as [Hs Hd].
    now apply _ensure_absolute_fixed.
  - destruct (canonical_name_shape r) as [Hs Hd].
    unfold canonical_name at 1. cbn [name].
    rewrite (_ensure_absolute_fixed _ Hs Hd). unfold canonical_name.
    apply lower_idem.
Qed.


(** ** Dictionaries: lookup after assignment *)

Section DictLookup.
Context {K V : Type} (eqb : K -> K -> bool).
Hypothesis eqb_spec : forall a b, eqb a b = true <-> a = b.

Lemma dict_get_set (d : list (K * V)) (k k' : K) (v : V) :
  dict_get eqb (dict_set eqb d k v) k'
  = if eqb k' k then Some v else dict_get eqb d k'.
Proof.
  induction d as [|[k0 v0] d IH]; simpl; [reflexivity |].
  destruct (eqb k k0) eqn:E; simpl.
  - apply eqb_spec in E. subst k0. destruct (eqb k' k); reflexivity.
  - rewrite IH. destruct (eqb k' k0) eqn:E0; [| reflexivity].
    destruct (eqb k' k) eqn:E1; [| reflexivity].
    apply eqb_spec in E0, E1. subst. rewrite (proj2 (eqb_spec k0 k0) eq_refl) in E.
    discriminate.
Qed.

Lemma dict_set_keys (d : list (K * V)) (k : K) (v : V) :
  dict_keys (dict_set eqb d k v)
  = if dict_mem eqb d k then dict_keys d else dict_keys d ++ [k].
Proof.
  unfold dict_keys, dict_mem. induction d as [|[k0 v0] d IH]; simpl; [reflexivity |].
  destruct (eqb k k0) eqn:E; simpl; [reflexivity |].
  rewrite IH. destruct (dict_get eqb d k); reflexivity.
Qed.

Lemma dict_mem_keys (d : list (K * V)) (k : K) :
  dict_mem eqb d k = true <-> In k (dict_keys d).
Proof.
  unfold dict_mem, dict_keys. induction d as [|[k0 v0] d IH]; simpl.
  - split; [discriminate | contradiction].
  - destruct (eqb k k0) eqn:E.
    + apply eqb_spec in E. split; [intros _; now left | reflexivity].
    + rewrite IH. split; [now right |]. intros [-> | H]; [| exact H].
      rewrite (proj2 (eqb_spec k k) eq_refl) in E. discriminate.
Qed.

Lemma dict_set_nodup (d : list (K * V)) (k : K) (v : V) :
  NoDup (dict_keys d) -> NoDup (dict_keys (dict_set eqb d k v)).
Proof.
  intros H. rewrite dict_set_keys. destruct (dict_mem eqb d k) eqn:E; [exact H |].
  apply NoDup_app; [exact H | repeat constructor; intros [] | ].
  intros x Hx [<- | []]. apply dict_mem_keys in Hx. congruence.
Qed.

(** With distinct keys, the items are what lookup finds. *)
Lemma dict_get_item (d : list (K * V)) (k : K) (v : V) :
  NoDup (dict_keys d) -> (In (k, v) d <-> dict_get eqb d k = Some v).
Proof.
  unfold dict_keys. induction d as [|[k0 v0] d IH]; simpl; intros Hnd.
  - split; [contradiction | discriminate].
  - inversion Hnd as [|? ? Hnotin Hnd']; subst.
    destruct (eqb k k0) eqn:E.
    + apply eqb_spec in E. subst k0. split.
      * intros [Heq | Hin]; [now inversion Heq |].
        destruct Hnotin. apply in_map_iff. now exists (k, v).
      * intros Heq. inversion Heq. now left.
    + rewrite <- (IH Hnd'). split; [| now right].
      intros [[= -> ->] | Hin]; [| exact Hin].
      rewrite (proj2 (eqb_spec k k) eq_refl) in E. discriminate.
Qed.

End DictLookup.

(** ** Identity keys, the index and the value maps *)

Section Lookups.

Lemma key_eqb_spec (a b : RecordKey) : key_eqb a b = true <-> a = b.
Proof.
  unfold key_eqb. rewrite !andb_true_iff, !String.eqb_eq.
  destruct a as [[a1 a2] a3], b as [[b1 b2] b3]; simpl. split.
  - intros [[-> ->] ->]. reflexivity.
  - intros [= -> -> ->]. auto.
Qed.

Lemma owner_type_eqb_spec (a b : OwnerType) : owner_type_eqb a b = true <-> a = b.
Proof.
  split; [apply owner_type_eqb_eq |]. intros ->. unfold owner_type_eqb.
  now rewrite !String.eqb_refl.
Qed.

Lemma key_eqb_split (k : OwnerType) (v : string) (r : DnsRecord) :
  key_eqb (k, v) (key r)
  = owner_type_eqb k (canonical_name r, canonical_type r)
    && String.eqb v (canonical_value r).
Proof. reflexivity. Qed.

Lemma _build_value_map_snoc (o : string) (l : list DnsRecord) (r : DnsRecord)
    (d : option Z) :
  _build_value_map (mkZoneState o (l ++ [r]) d)
  = value_map_step (_build_value_map (mkZoneState o l d)) r.
Proof. unfold _build_value_map. cbn [records]. now rewrite fold_left_app. Qed.

Lemma get_or_empty_step (m : ValueMap) (r : DnsRecord) (k : OwnerType) :
  canonical_type r <> "SOA" ->
  get_or_empty (value_map_step m r) k
  = if owner_type_eqb k (canonical_name r, canonical_type r)
    then dict_set String.eqb
           (get_or_empty m (canonical_name r, canonical_type r))
           (canonical_value r) r
    else get_or_empty m k.
Proof.
  intros Hns. unfold value_map_step.
  destruct (String.eqb_spec (canonical_type r) "SOA"); [contradiction |].
  unfold get_or_empty at 1. rewrite (dict_get_set _ owner_type_eqb_spec).
  destruct (owner_type_eqb k _); reflexivity.
Qed.

(** What a value map holds under an owner, a type and a value is the last
    record of the state, SOA apart, with that identity key. *)
Lemma value_lookup_last (state : ZoneState) (k : OwnerType) (v : string) :
  dict_get String.eqb (get_or_empty (_build_value_map state) k) v
  = last_with_key state (k, v).
Proof.
  destruct state as [o l d]. unfold last_with_key. cbn [records].
  induction l as [|r l IH] using rev_ind; [reflexivity |].
  rewrite _build_value_map_snoc, rev_app_distr. cbn [rev app find].
  rewrite key_eqb_split. unfold is_soa.
  destruct (String.eqb_spec (canonical_type r) "SOA") as [Hs | Hns].
  - unfold value_map_step. rewrite Hs. cbn. exact IH.
  - rewrite (get_or_empty_step _ _ _ Hns). cbn [negb andb].
    destruct (owner_type_eqb k (canonical_name r, canonical_type r)) eqn:E.
    + apply owner_type_eqb_spec in E. subst k.
      rewrite (dict_get_set _ String.eqb_eq). cbn [andb].
      destruct (String.eqb v (canonical_value r)); [reflexivity | exact IH].
    + exact IH.
Qed.

Lemma value_map_nodup (state : ZoneState) (k : OwnerType) :
  NoDup (dict_keys (get_or_empty (_build_value_map state) k)).
Proof.
  destruct state as [o l d]. revert k.
  induction l as [|r l IH] using rev_ind; intros k; [constructor |].
  rewrite _build_value_map_snoc.
  destruct (String.eqb_spec (canonical_type r) "SOA") as [Hs | Hns].
  - unfold value_map_step. rewrite Hs. cbn. apply IH.
  - rewrite (get_or_empty_step _ _ _ Hns).
    destruct (owner_type_eqb k _); [| apply IH].
    apply (dict_set_nodup _ String.eqb_eq), IH.
Qed.

Lemma held_iff (state : ZoneState) (k : OwnerType) (v : string) (r : DnsRecord) :
  In (v, r) (get_or_empty (_build_value_map state) k)
  <-> last_with_key state (k, v) = Some r.
Proof.
  rewrite <- value_lookup_last.
  apply (dict_get_item _ String.eqb_eq), value_map_nodup.
Qed.

Lemma last_with_key_key (state : ZoneState) (K : RecordKey) (r : DnsRecord) :
  last_with_key state K = Some r ->
  K = key r /\ In r (records state) /\ canonical_type r <> "SOA".
Proof.
  unfold last_with_key. intros H. apply find_some in H as [Hin H].
  apply andb_true_iff in H as [Hs Hk]. apply key_eqb_spec in Hk.
  apply in_rev in Hin. repeat split; try assumption.
  unfold is_soa in Hs. destruct (String.eqb_spec (canonical_type r) "SOA");
    [discriminate | assumption].
Qed.

Lemma held_in_keys (m : ValueMap) (k : OwnerType) (item : string * DnsRecord) :
  In item (get_or_empty m k) -> In k (dict_keys m).
Proof.
  unfold get_or_empty. intros H.
  apply (dict_mem_keys _ owner_type_eqb_spec). unfold dict_mem.
  destruct (dict_get owner_type_eqb m k); [reflexivity | destruct H].
Qed.

Lemma items_absent_iff (other mine : list (string * DnsRecord)) (r : DnsRecord) :
  In r (items_absent other mine)
  <-> exists v, In (v, r) mine /\ dict_get String.eqb other v = None.
Proof.
  unfold items_absent, dict_mem. rewrite in_flat_map. split.
  - intros ([v x] & Hin & H). cbn [fst snd] in H.
    destruct (dict_get String.eqb other v) eqn:E; [destruct H |].
    destruct H as [<- | []]. now exists v.
  - intros (v & Hin & E). exists (v, r). split; [exact Hin |].
    cbn [fst snd]. rewrite E. now left.
Qed.

Lemma items_retimed_iff (theirs mine : list (string * DnsRecord)) (b a : DnsRecord) :
  In (b, a) (items_retimed theirs mine)
  <-> exists v, In (v, a) mine /\ dict_get String.eqb theirs v = Some b
                /\ ttl b <> ttl a.
Proof.
  unfold items_retimed. rewrite in_flat_map. split.
  - intros ([v x] & Hin & H). cbn [fst snd] in H.
    destruct (dict_get String.eqb theirs v) as [c |] eqn:E; [| destruct H].
    destruct (Z.eqb_spec (ttl c) (ttl x)); cbn in H; [destruct H |].
    destruct H as [[= <- <-] | []]. now exists v.
  - intros (v & Hin & E & Hne). exists (v, a). split; [exact Hin |].
    cbn [fst snd]. rewrite E.
    destruct (Z.eqb_spec (ttl b) (ttl a)); [contradiction | now left].
Qed.

(** The records under the sorted keys of two maps that one map holds and
    the other lacks. *)
Lemma absent_exact (mine other : ZoneState) (keys : list OwnerType) (r : DnsRecord) :
  (forall k, In k (dict_keys (_build_value_map mine)) -> In k keys) ->
  In r (flat_map (fun k => items_absent (get_or_empty (_build_value_map other) k)
                             (get_or_empty (_build_value_map mine) k)) keys)
  <-> last_with_key mine (key r) = Some r /\ last_with_key other (key r) = None.
Proof.
  intros Hkeys. rewrite in_flat_map. split.
  - intros (k & _ & H). apply items_absent_iff in H as (v & Hin & Hnone).
    apply held_iff in Hin. rewrite value_lookup_last in Hnone.
    destruct (last_with_key_key _ _ _ Hin) as (<- & _). now split.
  - intros [Hm Ho].
    change (key r) with ((canonical_name r, canonical_type r), canonical_value r)
      in Hm, Ho.
    apply held_iff in Hm. rewrite <- value_lookup_last in Ho.
    exists (canonical_name r, canonical_type r). split.
    + apply Hkeys. exact (held_in_keys _ _ _ Hm).
    + apply items_absent_iff. now exists (canonical_value r).
Qed.

Lemma added_exact (desired current : ZoneState) (r : DnsRecord) :
  In r (added (diff_zones desired current))
  <-> last_with_key desired (key r) = Some r /\ last_with_key current (key r) = None.
Proof.
  destruct (diff_zones_lists desired current) as (-> & _ & _).
  apply absent_exact. intros k Hk. apply sorted_union_In. now left.
Qed.

Lemma removed_exact (desired current : ZoneState) (r : DnsRecord) :
  In r (removed (diff_zones desired current))
  <-> last_with_key current (key r) = Some r /\ last_with_key desired (key r) = None.
Proof.
  destruct (diff_zones_lists desired current) as (_ & -> & _).
  apply absent_exact. intros k Hk. apply sorted_union_In. now right.
Qed.

Lemma ttl_changed_exact (desired current : ZoneState) (before after : DnsRecord) :
  In (before, after) (ttl_changed (diff_zones desired current))
  <-> last_with_key current (key after) = Some before
      /\ last_with_key desired (key after) = Some after
      /\ ttl before <> ttl after.
Proof.
  destruct (diff_zones_lists desired current) as (_ & _ & ->).
  rewrite in_flat_map. split.
  - intros (k & _ & H). apply items_retimed_iff in H as (v & Hin & Hb & Hne).
    apply held_iff in Hin. rewrite value_lookup_last in Hb.
    destruct (last_with_key_key _ _ _ Hin) as (<- & _). now repeat split.
  - intros (Hb & Ha & Hne).
    change (key after)
      with ((canonical_name after, canonical_type after), canonical_value after)
      in Hb, Ha.
    apply held_iff in Ha. rewrite <- value_lookup_last in Hb.
    exists (canonical_name after, canonical_type after). split.
    + apply sorted_union_In. left. exact (held_in_keys _ _ _ Ha).
    + apply items_retimed_iff. now exists (canonical_value after).
Qed.

End Lookups.

(** X2.  Looking an identity key up in [index()] gives the last record of
    the state with that key, and nothing when no record has it; so every
    record of the state finds a record of its own key. *)
Theorem index_last_write_wins (state : ZoneState) (K : RecordKey) :
  dict_get key_eqb (index state) K = last_indexed state K
  /\ (forall r, In r (records state) ->
        exists r', dict_get key_eqb (index state) (key r) = Some r'
                   /\ key r' = key r).
Proof.
  assert (Hlookup : forall K', dict_get key_eqb (index state) K' = last_indexed state K').
  { intros K'. destruct state as [o l d]. unfold index, last_indexed. cbn [records].
    induction l as [|r l IH] using rev_ind; [reflexivity |].
    rewrite fold_left_app, rev_app_distr. cbn [fold_left rev app find].
    rewrite (dict_get_set _ key_eqb_spec).
    destruct (key_eqb K' (key r)); [reflexivity | exact IH]. }
  split; [apply Hlookup |].
  intros r Hin. rewrite Hlookup. unfold last_indexed.
  destruct (find (fun r0 => key_eqb (key r) (key r0)) (rev (records state)))
    as [r' |] eqn:E.
  - exists r'. split; [reflexivity |].
    apply find_some in E as [_ E]. apply key_eqb_spec in E. now symmetry.
  - apply in_rev in Hin. apply (find_none _ _ E r) in Hin.
    rewrite (proj2 (key_eqb_spec _ _) eq_refl) in Hin. discriminate.
Qed.

(** X3.  The diff, exactly.  A record is added when it is the last record
    of the desired state with its identity key (SOA apart) and the current
    state has no record with that key; removed, the other way round; and a
    pair is in [ttl_changed] when its records are the last ones with one
    key in the current and in the desired state and their TTLs differ. *)
Theorem diff_zones_exact (desired current : ZoneState) (r before after : DnsRecord) :
  (In r (added (diff_zones desired current))
   <-> last_with_key desired (key r) = Some r
       /\ last_with_key current (key r) = None)
  /\ (In r (removed (diff_zones desired current))
      <-> last_with_key current (key r) = Some r
          /\ last_with_key desired (key r) = None)
  /\ (In (before, after) (ttl_changed (diff_zones desired current))
      <-> last_with_key current (key after) = Some before
          /\ last_with_key desired (key after) = Some after
          /\ ttl before <> ttl after).
Proof.
  split; [apply added_exact | split; [apply removed_exact | apply ttl_changed_exact]].
Qed.

(** X4.  The diff of a state with itself is empty, duplicates and SOA
    records included. *)
Theorem diff_zones_self (A : ZoneState) :
  diff_zones A A = mkZoneDiff [] [] [] /\ has_changes (diff_zones A A) = false.
Proof.
  assert (H : diff_zones A A = mkZoneDiff [] [] []).
  { destruct (diff_zones A A) as [a r t] eqn:E.
    assert (Ha : a = []).
    { destruct a as [|x a]; [reflexivity |].
      assert (Hin : In x (added (diff_zones A A))) by (rewrite E; now left).
      apply added_exact in Hin as [H1 H2]. congruence. }
    assert (Hr : r = []).
    { destruct r as [|x r]; [reflexivity |].
      assert (Hin : In x (removed (diff_zones A A))) by (rewrite E; now left).
      apply removed_exact in Hin as [H1 H2]. congruence. }
    assert (Ht : t = []).
    { destruct t as [|[b x] t]; [reflexivity |].
      assert (Hin : In (b, x) (ttl_changed (diff_zones A A))) by (rewrite E; now left).
      apply ttl_changed_exact in Hin as (H1 & H2 & H3). congruence. }
    now subst. }
  split; [exact H | now rewrite H].
Qed.

(** X5.  No identity key is in two of the three lists of a diff: a record
    is never added and removed at once, and a TTL change is neither. *)
Theorem diff_categories_disjoint (desired current : ZoneState)
    (x y before after : DnsRecord) :
  (In x (added (diff_zones desired current)) ->
   In y (removed (diff_zones desired current)) -> key x <> key y)
  /\ (In (before, after) (ttl_changed (diff_zones desired current)) ->
      (In x (added (diff_zones desired current)) -> key x <> key after)
      /\ (In y (removed (diff_zones desired current)) -> key y <> key after)).
Proof.
  split.
  - intros Hx Hy E. apply added_exact in Hx as [_ Hx].
    apply removed_exact in Hy as [Hy _]. congruence.
  - intros Ht. apply ttl_changed_exact in Ht as (Hb & Ha & _). split.
    + intros Hx E. apply added_exact in Hx as [_ Hx]. congruence.
    + intros Hy E. apply removed_exact in Hy as [_ Hy]. congruence.
Qed.

(** ** Negotiation and plan *)

(** X6.  At one reading of the clock every further suggestion is the
    previous one plus one, whatever the first one started from. *)
Theorem _suggest_serial_again (clock : Clock) (strategy : string) (prior : option Z) :
  _suggest_serial clock strategy (Some (_suggest_serial clock strategy prior))
  = (_suggest_serial clock strategy prior + 1)%Z.
Proof.
  rewrite _suggest_serial_prior.
  assert (H : (strategy_candidate clock strategy
               <= _suggest_serial clock strategy prior)%Z).
  { destruct prior as [p |]; [| unfold _suggest_serial; lia].
    rewrite _suggest_serial_prior.
    destruct (Z.leb_spec (strategy_candidate clock strategy) p); lia. }
  destruct (Z.leb_spec (strategy_candidate clock strategy)
              (_suggest_serial clock strategy prior)); [reflexivity | lia].
Qed.


(** X8.  A plan never removes a record that an ignore pattern protects:
    what it removes is a record of the live zone, not an SOA, whose stored
    name, lower-cased, matches none of the patterns. *)
Theorem plan_spares_ignored (fnmatch : string -> string -> bool)
    (render_zone : AppConfig -> ZoneState -> SOAConfig -> result RenderResult)
    (clock : Clock) (config : AppConfig) (desired_zone : DesiredZone)
    (current_state : ZoneState) (p : PlanResult) (r : DnsRecord) :
  plan fnmatch render_zone clock config desired_zone current_state = inr p ->
  In r (removed (diff p)) ->
  In r (records current_state)
  /\ canonical_type r <> "SOA"
  /\ forall pattern, In pattern (ignore desired_zone) ->
       fnmatch (Py.lower (name r)) (Py.lower pattern) = false.
Proof.
  unfold plan, bind_result.
  destruct (_build_soa_config clock config desired_zone current_state) as [|s];
    [discriminate |].
  destruct (render_zone config _ s) as [|rr]; [discriminate |].
  intros [= <-]. cbn [diff]. intros H.
  apply removed_origin in H as [Hin Hns].
  apply _filter_records_In in Hin as [Hin [Hsoa | Hpat]].
  - repeat split; [exact Hin | exact Hns | contradiction].
  - repeat split; assumption.
Qed.


(** The plan against an empty desired state removes the address record
    and spares the challenge record. *)
Lemma plan_spares_ignored_witness :
  In www_a (records ignoring_current)
  /\ canonical_type www_a <> "SOA"
  /\ forall pattern, In pattern (ignore ignoring_desired) ->
       glob (Py.lower (name www_a)) (Py.lower pattern) = false.
Proof.
  eapply (plan_spares_ignored glob sample_render_zone sample_clock sample_config
            ignoring_desired ignoring_current _ www_a).
  - reflexivity.
  - left. reflexivity.
Defined.

(** ** The runs of [apply] *)

(** X9.  A changed plan that the operator does not confirm ("y" or "yes",
    in any letter case, blanks around it apart) is not applied: the run
    prompts once, logs the abort and ends without an exception; nothing is
    written, run or sent. *)
Theorem apply_declined (w : World) (config : AppConfig) (plan_result : PlanResult) :
  has_changes (diff plan_result) = true ->
  mem_str (Py.lower (Py.strip (input_line w))) ["y"; "yes"] = false ->
  apply w config plan_result false
  = ([Input ("Apply changes to " ++ origin (desired plan_result) ++ "? [y/N]: ");
      LogInfo "Apply aborted by user."], inr tt).
Proof.
  intros Hc Hn. unfold_apply. rewrite Hc. cbn [negb fst snd app]. rewrite Hn.
  reflexivity.
Qed.

Lemma apply_declined_witness :
  apply declining_world sample_config api_plan false
  = ([Input "Apply changes to example.com.? [y/N]: ";
      LogInfo "Apply aborted by user."], inr tt).
Proof.
  apply (apply_declined declining_world sample_config api_plan); reflexivity.
Defined.

(** X10.  With [assume_yes] no run of [apply] prompts, whatever the plan,
    the configuration and the world are. *)
Theorem apply_yes_never_prompts (w : World) (config : AppConfig)
    (plan_result : PlanResult) (prompt : string) :
  ~ In (Input prompt) (fst (apply w config plan_result true)).
Proof.
  unfold_apply. split_run; intros H; cases_of_In H; solve [discriminate H | exact H].
Qed.

(** X11.  Under the zone-file strategy no run of [apply] sends a dynamic
    update. *)
Theorem apply_zone_never_updates (w : World) (config : AppConfig)
    (plan_result : PlanResult) (assume_yes : bool)
    (server : string) (port : Z) (zone : string) (ops : list UpdateOp) :
  apply_strategy config = "zone" ->
  ~ In (QueryTcp server port zone ops) (fst (apply w config plan_result assume_yes)).
Proof.
  intros Hz. unfold_apply. rewrite Hz. cbn [String.eqb Ascii.eqb Bool.eqb].
  split_run; intros H; cases_of_In H; solve [discriminate H | exact H].
Qed.

Lemma apply_zone_never_updates_witness :
  ~ In (QueryTcp "127.0.0.1" 53 "example.com."
          [OpDelete "api" "A" "9.9.9.9"; OpAdd "api" 600 "A" "9.9.9.9"])
       (fst (apply sample_world zone_config api_plan true)).
Proof.
  apply (apply_zone_never_updates sample_world zone_config api_plan true).
  reflexivity.
Defined.



(** X13.  When the server answers the update with a response code other
    than NOERROR, the update is the last effect of the run and the run ends
    with the error "Dynamic update failed with rcode ...": no commit
    follows. *)
Theorem apply_update_refused (w : World) (config : AppConfig)
    (plan_result : PlanResult) (assume_yes : bool) (rcode : Z)
    (server : string) (port : Z) (zone : string) (ops : list UpdateOp) :
  update_response w config (origin (desired plan_result))
    (update_operations (diff plan_result)) = inr rcode ->
  rcode <> 0%Z ->
  In (QueryTcp server port zone ops) (fst (apply w config plan_result assume_yes)) ->
  exists before,
    apply w config plan_result assume_yes
    = (before ++ [QueryTcp server port zone ops],
       inl (Bind9CtlError ("Dynamic update failed with rcode " ++ rcode_text w rcode))).
Proof.
  intros Hresp Hne Hin. revert Hin. unfold_apply.
  split_run; intros Hin; cases_of_In Hin;
    try solve [discriminate Hin | destruct Hin];
    injection Hin as <- <- <- <-;
    try solve [discriminate Hresp];
    injection Hresp as ->;
    try solve [match goal with
               | H : (rcode =? 0)%Z = true |- _ => apply Z.eqb_eq in H; contradiction
               end];
    match goal with
    | |- exists before, (?j, _) = _ => exists (removelast j); reflexivity
    end.
Qed.

Lemma apply_update_refused_witness :
  exists before,
    apply refusing_world sample_config api_plan true
    = (before ++ [QueryTcp "127.0.0.1" 53 "example.com."
                    [OpDelete "api" "A" "9.9.9.9"; OpAdd "api" 600 "A" "9.9.9.9"]],
       inl (Bind9CtlError "Dynamic update failed with rcode REFUSED")).
Proof.
  apply (apply_update_refused refusing_world sample_config api_plan true 5%Z).
  - reflexivity.
  - discriminate.
  - cbn. auto 10.
Defined.

(** X14.  A changed and confirmed plan whose apply returns has had its
    zone file written and, under the zone-file strategy, the reload command
    run, or else the batch [update_operations] of its diff sent to the
    configured server. *)
Theorem apply_completed (w : World) (config : AppConfig)
    (plan_result : PlanResult) (assume_yes : bool) :
  has_changes (diff plan_result) = true ->
  assume_yes || mem_str (Py.lower (Py.strip (input_line w))) ["y"; "yes"] = true ->
  snd (apply w config plan_result assume_yes) = inr tt ->
  let journal := fst (apply w config plan_result assume_yes) in
  In (WriteText (output_path (render plan_result)) (text (render plan_result))) journal
  /\ (if String.eqb (apply_strategy config) "zone"
      then In (Run [rndc_bin config; "-s"; rndc_server config; "reload";
                    origin (desired plan_result); bind_view config]) journal
      else In (QueryTcp (bind_server config) (bind_port config)
                 (origin (desired plan_result))
                 (update_operations (diff plan_result))) journal).
Proof.
  intros Hc Hyes. cbv zeta. unfold_apply. rewrite Hc.
  split_run; cbn [fst snd app In]; intros Hok;
    try solve [discriminate Hok];
    try solve [match goal with
               | H : negb _ = true |- _ =>
                   apply negb_true_iff in H; rewrite H in Hyes;
                   cbn in Hyes; discriminate Hyes
               end];
    try solve [unfold has_changes in Hc;
               repeat match goal with
                      | H : context [is_nil ?l] |- _ => destruct (is_nil l)
                      end; discriminate];
    split; auto 20.
Qed.

Lemma apply_completed_witness :
  In (WriteText "zones/example.com.zone" "$ORIGIN example.com.")
     (fst (apply sample_world sample_config api_plan false))
  /\ In (QueryTcp "127.0.0.1" 53 "example.com."
           [OpDelete "api" "A" "9.9.9.9"; OpAdd "api" 600 "A" "9.9.9.9"])
        (fst (apply sample_world sample_config api_plan false)).
Proof.
  exact (apply_completed sample_world sample_config api_plan false
           eq_refl eq_refl eq_refl).
Defined.

Lemma command_after (W : Effect) (pre0 rest pre post : list Effect) (e : Effect) :
  is_command W = false ->
  Forall (fun x => is_command x = false) pre0 ->
  pre0 ++ W :: rest = pre ++ e :: post ->
  is_command e = true ->
  In W pre.
Proof.
  intros HW Hpre Heq He.
  apply app_eq_app in Heq as [l [[-> Hl] | [-> Hl]]].
  - destruct l as [|x l]; cbn in Hl.
    + injection Hl as -> _. congruence.
    + injection Hl as -> _. apply Forall_app in Hpre as [_ Hpre].
      inversion Hpre; subst. congruence.
  - destruct l as [|x l]; cbn in Hl.
    + injection Hl as -> _. congruence.
    + injection Hl as -> _. apply in_or_app. right. now left.
Qed.

Lemma apply_journal_shape (w : World) (config : AppConfig)
    (plan_result : PlanResult) (assume_yes : bool) :
  Forall (fun x => is_command x = false) (fst (apply w config plan_result assume_yes))
  \/ exists pre rest,
       fst (apply w config plan_result assume_yes)
       = pre ++ WriteText (output_path (render plan_result)) (text (render plan_result))
                :: rest
       /\ Forall (fun x => is_command x = false) pre.
Proof.
  unfold_apply.
  split_run;
    first [ left; solve [repeat constructor]
          | right; eexists [_]; eexists; split; [reflexivity | solve [repeat constructor]]
          | right; eexists [_; _]; eexists; split;
            [reflexivity | solve [repeat constructor]] ].
Qed.

(** X15.  In every run of [apply] the zone file is written before the
    first command is run or update sent: whatever stands before a command
    in the journal includes the write of the rendered text to its path. *)
Theorem apply_writes_first (w : World) (config : AppConfig)
    (plan_result : PlanResult) (assume_yes : bool)
    (pre post : list Effect) (e : Effect) :
  fst (apply w config plan_result assume_yes) = pre ++ e :: post ->
  is_command e = true ->
  In (WriteText (output_path (render plan_result)) (text (render plan_result))) pre.
Proof.
  intros Heq He.
  destruct (apply_journal_shape w config plan_result assume_yes)
    as [Hnone | (pre0 & rest & Hj & Hpre)].
  - rewrite Heq in Hnone. apply Forall_app in Hnone as [_ Hnone].
    inversion Hnone; subst. congruence.
  - rewrite Hj in Heq.
    eapply command_after; [| exact Hpre | exact Heq | exact He]. reflexivity.
Qed.

Lemma apply_writes_first_witness :
  In (WriteText "zones/example.com.zone" "$ORIGIN example.com.")
     [MkdirParents "zones/example.com.zone";
      WriteText "zones/example.com.zone" "$ORIGIN example.com.";
      LogInfo "Wrote zone file to zones/example.com.zone";
      LogInfo "Running named-checkzone example.com. zones/example.com.zone"].
Proof.
  apply (apply_writes_first failing_world sample_config api_plan true _ []
           (Run ["named-checkzone"; "example.com."; "zones/example.com.zone"]));
    reflexivity.
Defined.

(** ** The loader *)

Section LoaderFacts.

Lemma mem_str_cons (x y : string) (l : list string) :
  mem_str x (y :: l) = String.eqb x y || mem_str x l.
Proof. reflexivity. Qed.

Lemma mem_str_In (x : string) (l : list string) : mem_str x l = true <-> In x l.
Proof.
  unfold mem_str. rewrite existsb_exists. split.
  - intros (y & Hin & E). apply String.eqb_eq in E. now subst.
  - intros H. exists x. split; [exact H | apply String.eqb_refl].
Qed.

Lemma mem_str_false (x : string) (l : list string) :
  mem_str x l = false <-> ~ In x l.
Proof.
  rewrite <- mem_str_In. destruct (mem_str x l); split; congruence.
Qed.

(** The two [_ensure_absolute], of models.py and of yaml_loader.py, are
    one function. *)
Lemma _ensure_absolute_agree (x : string) :
  YamlLoader._ensure_absolute x = _ensure_absolute x.
Proof.
  unfold YamlLoader._ensure_absolute, _ensure_absolute. rewrite !mem_str_cons.
  destruct (String.eqb_spec (Py.strip x) ""); [reflexivity |].
  destruct (String.eqb_spec (Py.strip x) "@"); [reflexivity |].
  destruct (String.eqb_spec (Py.strip x) ".") as [-> | _]; reflexivity.
Qed.

Lemma endswith_dot_append (a b : string) :
  Py.endswith b "." = true -> Py.endswith (a ++ b) "." = true.
Proof.
  intros H. apply endswith_iff in H as [pre ->]. apply endswith_iff.
  exists (a ++ pre)%string. now rewrite append_assoc.
Qed.

Lemma _normalise_owner_relative (name origin : string) :
  mem_str name [""; "@"; "."] = false -> Py.endswith name "." = false ->
  YamlLoader._normalise_owner name origin
  = (name ++ "." ++ Py.rstrip_char "." origin ++ ".")%string.
Proof. intros H1 H2. unfold YamlLoader._normalise_owner. now rewrite H1, H2. Qed.

Lemma _normalise_owner_dot (name origin : string) :
  Py.endswith origin "." = true ->
  Py.endswith (YamlLoader._normalise_owner name origin) "." = true.
Proof.
  intros Ho. unfold YamlLoader._normalise_owner.
  destruct (mem_str name [""; "@"; "."]); [exact Ho |].
  destruct (Py.endswith name ".") eqn:E; [exact E |].
  apply endswith_dot_append, endswith_dot_append, endswith_dot_append. reflexivity.
Qed.

Lemma concat_map_last_dot (f : string -> string) (sep p : string) (ps : list string) :
  (forall t, Py.endswith (f t) "." = true) ->
  Py.endswith (String.concat sep (map_last f (p :: ps))) "." = true.
Proof.
  intros Hf. revert p. induction ps as [|q qs IH]; intros p; [apply Hf |].
  change (map_last f (p :: q :: qs)) with (p :: map_last f (q :: qs)).
  specialize (IH q).
  destruct (map_last f (q :: qs)) as [|x xs] eqn:E.
  - destruct qs; discriminate E.
  - change (String.concat sep (p :: x :: xs))
      with (p ++ sep ++ String.concat sep (x :: xs))%string.
    now apply endswith_dot_append, endswith_dot_append.
Qed.

Lemma yaml_ensure_absolute_dot (x : string) :
  Py.endswith (YamlLoader._ensure_absolute x) "." = true.
Proof. rewrite _ensure_absolute_agree. apply _ensure_absolute_shape. Qed.

Lemma _normalise_value_fails (rtype value origin : string) (e : YamlLoader.LoadError) :
  YamlLoader._normalise_value rtype value origin = inl e
  <-> rtype = "SRV" /\ length (Py.split (Py.strip value)) < 3
      /\ e = YamlLoader.ValidationError
               "SRV record value must include weight, port, and target.".
Proof.
  unfold YamlLoader._normalise_value.
  destruct (mem_str rtype YamlLoader.FQDN_TYPES) eqn:Ef.
  - split.
    + destruct (Py.endswith (Py.strip value) "."); discriminate.
    + intros (-> & _). discriminate Ef.
  - destruct (String.eqb_spec rtype "SRV") as [-> | Hn].
    + destruct (Nat.ltb_spec (length (Py.split (Py.strip value))) 3).
      * split; [intros [= <-]; auto | intros (_ & _ & ->); reflexivity].
      * split; [discriminate | intros (_ & H' & _); lia].
    + split; [discriminate | intros (H' & _); contradiction].
Qed.

Lemma load_records_Forall2 (default_ttl : Z) (origin : string)
    (specs : list YamlLoader.RecordSpec) (records : list DnsRecord) :
  YamlLoader.load_records default_ttl origin specs = inr records ->
  Forall2 (fun spec record =>
             name record = YamlLoader._normalise_owner (YamlLoader.rs_name spec) origin
             /\ type record = YamlLoader.rs_type spec
             /\ ttl record = or_int (YamlLoader.rs_ttl spec) default_ttl
             /\ YamlLoader._normalise_value (YamlLoader.rs_type spec)
                  (YamlLoader.rs_value spec) origin = inr (value record)
             /\ priority record = YamlLoader.rs_priority spec)
    specs records.
Proof.
  revert records. induction specs as [|s specs IH]; intros records; cbn.
  - intros [= <-]. constructor.
  - destruct (YamlLoader._normalise_value _ _ _) as [|v] eqn:Ev; [discriminate |].
    destruct (YamlLoader.load_records _ _ specs) as [|rs]; [discriminate |].
    intros [= <-]. constructor; [| now apply IH].
    cbn. repeat split. exact Ev.
Qed.

Lemma load_records_fails (default_ttl : Z) (origin : string)
    (specs : list YamlLoader.RecordSpec) (e : YamlLoader.LoadError) :
  YamlLoader.load_records default_ttl origin specs = inl e
  <-> exists spec, In spec specs
        /\ YamlLoader._normalise_value (YamlLoader.rs_type spec)
             (YamlLoader.rs_value spec) origin = inl e.
Proof.
  revert e. induction specs as [|s specs IH]; intros e; cbn.
  - split; [discriminate | intros (? & [] & _)].
  - destruct (YamlLoader._normalise_value _ _ _) as [e' | v] eqn:Ev.
    + split.
      * intros [= <-]. exists s. split; [now left | exact Ev].
      * intros (spec & _ & H). apply _normalise_value_fails in H as (_ & _ & ->).
        apply _normalise_value_fails in Ev as (_ & _ & ->). reflexivity.
    + destruct (YamlLoader.load_records _ _ specs) as [e' | rs].
      * split.
        -- intros [= <-]. destruct (proj1 (IH e') eq_refl) as (spec & Hin & H).
           exists spec. split; [now right | exact H].
        -- intros (spec & _ & H). apply _normalise_value_fails in H as (_ & _ & ->).
           destruct (proj1 (IH e') eq_refl) as (spec' & _ & H').
           apply _normalise_value_fails in H' as (_ & _ & ->). reflexivity.
      * split; [discriminate |].
        intros (spec & [<- | Hin] & H); [congruence |].
        assert (Hc : @inr YamlLoader.LoadError _ rs = inl e)
          by (apply IH; now exists spec).
        discriminate Hc.
Qed.

End LoaderFacts.

(** X16.  [_normalise_owner] against an origin closed by a dot gives a name
    closed by a dot, and normalising that name again changes nothing. *)
Theorem _normalise_owner_idempotent (name origin : string) :
  Py.endswith origin "." = true ->
  Py.endswith (YamlLoader._normalise_owner name origin) "." = true
  /\ YamlLoader._normalise_owner (YamlLoader._normalise_owner name origin) origin
     = YamlLoader._normalise_owner name origin.
Proof.
  intros Ho. split; [now apply _normalise_owner_dot |].
  destruct (mem_str name [""; "@"; "."]) eqn:Em.
  - assert (E : YamlLoader._normalise_owner name origin = origin)
      by (unfold YamlLoader._normalise_owner; now rewrite Em).
    rewrite E. unfold YamlLoader._normalise_owner. rewrite Ho.
    destruct (mem_str origin [""; "@"; "."]); reflexivity.
  - destruct (Py.endswith name ".") eqn:Ed.
    + assert (E : YamlLoader._normalise_owner name origin = name)
        by (unfold YamlLoader._normalise_owner; now rewrite Em, Ed).
      rewrite E. exact E.
    + rewrite (_normalise_owner_relative name origin Em Ed).
      set (s := (name ++ "." ++ Py.rstrip_char "." origin ++ ".")%string).
      assert (Hd : Py.endswith s "." = true)
        by (unfold s; apply endswith_dot_append, endswith_dot_append,
              endswith_dot_append; reflexivity).
      assert (Hm : mem_str s [""; "@"; "."] = false).
      { apply mem_str_false. intros Hin.
        assert (Hl : String.length s <= 1)
          by (destruct Hin as [<- | [<- | [<- | []]]]; cbn; lia).
        unfold s in Hl. rewrite !length_append in Hl. cbn in Hl.
        destruct name; [discriminate Em | cbn in Hl; lia]. }
      unfold YamlLoader._normalise_owner. now rewrite Hm, Hd.
Qed.

Lemma _normalise_owner_idempotent_witness :
  Py.endswith (YamlLoader._normalise_owner "www" "example.com.") "." = true
  /\ YamlLoader._normalise_owner
       (YamlLoader._normalise_owner "www" "example.com.") "example.com."
     = YamlLoader._normalise_owner "www" "example.com.".
Proof. apply (_normalise_owner_idempotent "www" "example.com."). reflexivity. Defined.

(** X17.  Relative owner and back.  When the canonical origin has one final
    dot, [_normalise_owner] undoes [owner_for_zone]: for the apex, for a
    name made of a label (not "@", not closed by a dot), a dot and the
    origin, and for a name, other than the root, that does not end with
    the origin. *)
Theorem owner_round_trip (self : DnsRecord) (origin : string) :
  let absolute_origin := Py.lower (_ensure_absolute origin) in
  let absolute_name := canonical_name self in
  (Py.rstrip_char "." absolute_origin ++ ".")%string = absolute_origin ->
  absolute_name = absolute_origin
  \/ (exists label, absolute_name = (label ++ "." ++ absolute_origin)%string
        /\ label <> "" /\ label <> "@" /\ Py.endswith label "." = false)
  \/ (Py.endswith absolute_name absolute_origin = false /\ absolute_name <> ".") ->
  YamlLoader._normalise_owner (owner_for_zone self origin) absolute_origin
  = absolute_name.
Proof.
  cbv zeta. intros Htrim [Hapex | [(label & Hcn & Hne & Hat & Hdot) | [Hout Hroot]]].
  - unfold owner_for_zone. rewrite Hapex, String.eqb_refl. reflexivity.
  - rewrite (owner_for_zone_relative self origin (label ++ "."))
      by (try (destruct label; discriminate); now rewrite append_assoc).
    cbv zeta. rewrite endswith_append.
    change (Py.slice_to_neg 1 (label ++ "."))
      with (Py.slice_to_neg (String.length ".") (label ++ ".")).
    rewrite (slice_to_neg_append label ".") by discriminate.
    destruct (String.eqb_spec label ""); [contradiction |].
    rewrite _normalise_owner_relative.
    + now rewrite Htrim, Hcn.
    + apply mem_str_false. intros [<- | [<- | [<- | []]]];
        solve [contradiction | discriminate Hdot].
    + exact Hdot.
  - destruct (canonical_name_shape self) as [_ Hd].
    unfold owner_for_zone. rewrite Hout.
    destruct (String.eqb_spec (canonical_name self) (Py.lower (_ensure_absolute origin)))
      as [E | _].
    + assert (Ht : Py.endswith (canonical_name self)
                     (Py.lower (_ensure_absolute origin)) = true)
        by (apply endswith_iff; exists ""; exact E).
      congruence.
    + unfold YamlLoader._normalise_owner. rewrite Hd.
      replace (mem_str (canonical_name self) [""; "@"; "."]) with false; [reflexivity |].
      symmetry. apply mem_str_false. intros [E | [E | [E | []]]].
      * rewrite <- E in Hd. discriminate Hd.
      * rewrite <- E in Hd. discriminate Hd.
      * now symmetry in E.
Qed.

Lemma owner_round_trip_witness :
  YamlLoader._normalise_owner
    (owner_for_zone (mkRecord "WWW.Example.com" "A" 300 "192.0.2.1" None) "example.com")
    "example.com."
  = "www.example.com.".
Proof.
  apply (owner_round_trip (mkRecord "WWW.Example.com" "A" 300 "192.0.2.1" None)
           "example.com").
  - reflexivity.
  - right. left. exists "www". repeat split; discriminate.
Defined.

(** X18.  What [_normalise_value] returns.  It fails only for an SRV value of
    fewer than three tokens; for the types CNAME, MX, NS and PTR (with an
    origin closed by a dot) and for SRV the value it returns is closed by a
    dot; for every other type it is the value stripped. *)
Theorem _normalise_value_cases (rtype value origin : string) :
  (forall e, YamlLoader._normalise_value rtype value origin = inl e
     <-> rtype = "SRV" /\ length (Py.split (Py.strip value)) < 3
         /\ e = YamlLoader.ValidationError
                  "SRV record value must include weight, port, and target.")
  /\ (forall v, YamlLoader._normalise_value rtype value origin = inr v ->
        (In rtype ["CNAME"; "MX"; "NS"; "PTR"] -> Py.endswith origin "." = true ->
         Py.endswith v "." = true)
        /\ (rtype = "SRV" -> Py.endswith v "." = true)
        /\ (~ In rtype ["CNAME"; "MX"; "NS"; "PTR"; "SRV"] -> v = Py.strip value)).
Proof.
  split; [intros e; apply _normalise_value_fails |].
  intros v. unfold YamlLoader._normalise_value, YamlLoader.FQDN_TYPES.
  destruct (mem_str rtype ["CNAME"; "MX"; "NS"; "PTR"]) eqn:Ef.
  - intros Hv. split; [| split].
    + intros _ Ho. destruct (Py.endswith (Py.strip value) ".") eqn:E;
        injection Hv as <-; [exact E | now apply _normalise_owner_dot].
    + intros ->. discriminate Ef.
    + intros Hn. apply mem_str_In in Ef. destruct Hn.
      cbn in Ef |- *. tauto.
  - apply mem_str_false in Ef.
    destruct (String.eqb_spec rtype "SRV") as [-> | Hn].
    + destruct (Nat.ltb_spec (length (Py.split (Py.strip value))) 3) as [| Hlen];
        [discriminate |].
      intros [= <-]. split; [intros H; contradiction | split].
      * intros _. destruct (Py.split (Py.strip value)) as [|p ps]; [cbn in Hlen; lia |].
        apply concat_map_last_dot, yaml_ensure_absolute_dot.
      * intros Hn. destruct Hn. cbn. tauto.
    + intros [= <-]. split; [intros H; contradiction | split];
        [intros H; contradiction | reflexivity].
Qed.

(** X19.  When loading fails.  [load_desired_zone] fails exactly when the
    zone name is missing (the origin comes out as the root) or a record of
    type SRV has a value of fewer than three tokens; a record written with
    "srv" in any letter case is such a record, since the schema upper-cases
    the type. *)
Theorem load_desired_zone_fails (config : AppConfig) (spec : YamlLoader.ZoneSpec)
    (zone_hint : option string) :
  let origin :=
    YamlLoader._ensure_absolute (or_str (YamlLoader.zs_zone spec) (or_str zone_hint "")) in
  ((exists e, YamlLoader.load_desired_zone config spec zone_hint = inl e)
   <-> origin = "."
       \/ exists record, In record (YamlLoader.zs_records spec)
            /\ YamlLoader.rs_type record = "SRV"
            /\ length (Py.split (Py.strip (YamlLoader.rs_value record))) < 3)
  /\ (forall name type value ttl priority,
        In (YamlLoader.RecordSpec_init name type value ttl priority)
           (YamlLoader.zs_records spec) ->
        Py.upper type = "SRV" ->
        length (Py.split (Py.strip value)) < 3 ->
        exists e, YamlLoader.load_desired_zone config spec zone_hint = inl e).
Proof.
  cbv zeta.
  assert (Hiff :
    (exists e, YamlLoader.load_desired_zone config spec zone_hint = inl e)
    <-> YamlLoader._ensure_absolute
          (or_str (YamlLoader.zs_zone spec) (or_str zone_hint "")) = "."
        \/ exists record, In record (YamlLoader.zs_records spec)
             /\ YamlLoader.rs_type record = "SRV"
             /\ length (Py.split (Py.strip (YamlLoader.rs_value record))) < 3).
  { unfold YamlLoader.load_desired_zone.
    destruct (String.eqb_spec
                (YamlLoader._ensure_absolute
                   (or_str (YamlLoader.zs_zone spec) (or_str zone_hint ""))) ".")
      as [E | E].
    - split; [intros _; now left | intros _; eexists; reflexivity].
    - destruct (YamlLoader.load_records _ _ _) as [e |rs] eqn:El.
      + split; [| intros _; now exists e]. intros _. right.
        apply load_records_fails in El as (record & Hin & H).
        apply _normalise_value_fails in H as (H1 & H2 & _). now exists record.
      + split; [intros [e H]; discriminate H |].
        intros [H | (record & Hin & H1 & H2)]; [contradiction |].
        assert (Hc : @inr YamlLoader.LoadError _ rs
                     = inl (YamlLoader.ValidationError
                              "SRV record value must include weight, port, and target.")).
        { rewrite <- El. apply load_records_fails. exists record. split; [exact Hin |].
          apply _normalise_value_fails. auto. }
        discriminate Hc. }
  split; [exact Hiff |].
  intros name type value ttl priority Hin Hup Hlen. apply Hiff. right.
  exists (YamlLoader.RecordSpec_init name type value ttl priority).
  split; [exact Hin | split; [exact Hup | exact Hlen]].
Qed.

(** X20.  What a loaded zone looks like.  The origin is absolute and not the
    root; the records follow the document one for one and in order, each
    with its owner normalised against the origin and so closed by a dot;
    a TTL that is absent or zero is replaced by the default, so that with
    a configured default other than zero no loaded TTL is zero; overrides
    and ignore patterns pass through. *)
Theorem load_desired_zone_shape (config : AppConfig) (spec : YamlLoader.ZoneSpec)
    (zone_hint : option string) (loaded : DesiredZone) :
  YamlLoader.load_desired_zone config spec zone_hint = inr loaded ->
  let zone := state loaded in
  let default := or_int (YamlLoader.zs_default_ttl spec) (default_record_ttl config) in
  origin zone
  = YamlLoader._ensure_absolute (or_str (YamlLoader.zs_zone spec) (or_str zone_hint ""))
  /\ origin zone <> "."
  /\ Py.endswith (origin zone) "." = true
  /\ default_ttl zone = Some default
  /\ Forall2 (fun s r =>
                name r = YamlLoader._normalise_owner (YamlLoader.rs_name s) (origin zone)
                /\ type r = YamlLoader.rs_type s
                /\ ttl r = or_int (YamlLoader.rs_ttl s) default
                /\ priority r = YamlLoader.rs_priority s)
       (YamlLoader.zs_records spec) (records zone)
  /\ Forall (fun r => Py.endswith (name r) "." = true) (records zone)
  /\ (default_record_ttl config <> 0%Z -> Forall (fun r => ttl r <> 0%Z) (records zone))
  /\ soa_overrides loaded = YamlLoader.zs_soa spec
  /\ ignore loaded = YamlLoader.zs_ignore spec.
Proof.
  unfold YamlLoader.load_desired_zone.
  set (o := YamlLoader._ensure_absolute
              (or_str (YamlLoader.zs_zone spec) (or_str zone_hint ""))).
  set (dflt := or_int (YamlLoader.zs_default_ttl spec) (default_record_ttl config)).
  destruct (String.eqb_spec o ".") as [| Ho]; [discriminate |].
  destruct (YamlLoader.load_records dflt o (YamlLoader.zs_records spec))
    as [|rs] eqn:El; [discriminate |].
  intros [= <-]. cbv zeta. cbn [state origin records default_ttl soa_overrides ignore].
  assert (Hd : Py.endswith o "." = true) by apply yaml_ensure_absolute_dot.
  apply load_records_Forall2 in El.
  repeat split; try assumption.
  - eapply Forall2_impl; [| exact El]. cbn. intros s r (H1 & H2 & H3 & _ & H5). auto.
  - clear Ho. induction El as [|s r ss rs' (H1 & _) _ IH]; constructor; [| exact IH].
    rewrite H1. now apply _normalise_owner_dot.
  - intros Hcfg.
    assert (Hdflt : dflt <> 0%Z).
    { unfold dflt, or_int, Py.truthy_int.
      destruct (YamlLoader.zs_default_ttl spec) as [z |]; [| exact Hcfg].
      destruct (Z.eqb_spec z 0); [exact Hcfg | assumption]. }
    clear Ho. induction El as [|s r ss rs' (_ & _ & H3 & _) _ IH]; constructor;
      [| exact IH].
    rewrite H3. unfold or_int, Py.truthy_int.
    destruct (YamlLoader.rs_ttl s) as [z |]; [| exact Hdflt].
    destruct (Z.eqb_spec z 0); [exact Hdflt | assumption].
Qed.

Lemma load_desired_zone_shape_witness :
  origin (state
            (mkDesiredZone
               (mkZoneState "Example.com."
                  [mkRecord "www.Example.com." "A" 3600 "192.0.2.10" None;
                   mkRecord "Example.com." "MX" 3600 "mail.Example.com." (Some 10%Z);
                   mkRecord "api.Example.com." "CNAME" 60 "www.Example.com." None]
                  (Some 3600%Z))
               None ["_acme-challenge.*"]))
  = "Example.com.".
Proof.
  apply (load_desired_zone_shape sample_config sample_spec None). reflexivity.
Defined.

(** ** The exporter *)

Section ExportOrder.

Lemma owner_type_compare_refl (a : OwnerType) : owner_type_compare a a = Eq.
Proof. unfold owner_type_compare. now rewrite !string_compare_refl. Qed.

Lemma record_key_compare_refl (a : RecordKey) : record_key_compare a a = Eq.
Proof.
  unfold record_key_compare. now rewrite owner_type_compare_refl, string_compare_refl.
Qed.

Lemma record_key_compare_lt (a b : RecordKey) :
  record_key_compare a b = Lt
  <-> key_lt (fst a) (fst b) \/ (fst a = fst b /\ String_as_OT.lt (snd a) (snd b)).
Proof.
  unfold record_key_compare.
  destruct (owner_type_compare (fst a) (fst b)) eqn:E.
  - apply owner_type_compare_eq in E. split.
    + intros H. right. now split.
    + intros [L | [_ L]]; [| exact L]. rewrite E in L. now apply key_lt_irrefl in L.
  - split; [intros _; now left | reflexivity].
  - apply owner_type_compare_gt in E. split; [discriminate |].
    intros [L | [Eq' _]].
    + destruct (key_lt_irrefl (fst a)). exact (key_lt_trans _ _ _ L E).
    + rewrite Eq' in E. now apply key_lt_irrefl in E.
Qed.

Lemma record_key_compare_eq (a b : RecordKey) : record_key_compare a b = Eq -> a = b.
Proof.
  unfold record_key_compare. destruct a as [a1 a3], b as [b1 b3]. cbn [fst snd].
  destruct (owner_type_compare a1 b1) eqn:E; try discriminate.
  apply owner_type_compare_eq in E.
  destruct (String_as_OT.compare_spec a3 b3); try discriminate.
  intros _. congruence.
Qed.

Lemma record_key_compare_gt (a b : RecordKey) :
  record_key_compare a b = Gt -> record_key_compare b a = Lt.
Proof.
  intros H. apply record_key_compare_lt. unfold record_key_compare in H.
  destruct (owner_type_compare (fst a) (fst b)) eqn:E; [| discriminate |].
  - apply owner_type_compare_eq in E. right. split; [now symmetry |].
    destruct (String_as_OT.compare_spec (snd a) (snd b)); try discriminate. assumption.
  - left. now apply owner_type_compare_gt.
Qed.

Lemma record_key_lt_trans (a b c : RecordKey) :
  record_key_compare a b = Lt -> record_key_compare b c = Lt ->
  record_key_compare a c = Lt.
Proof.
  rewrite !record_key_compare_lt. intros [H1 | [E1 H1]] [H2 | [E2 H2]].
  - left. exact (key_lt_trans _ _ _ H1 H2).
  - left. now rewrite <- E2.
  - left. now rewrite E1.
  - right. split; [congruence |]. now apply (StrictOrder_Transitive _ (snd b)).
Qed.

Lemma key_le_cases (a b : RecordKey) :
  key_le a b <-> record_key_compare a b = Lt \/ a = b.
Proof.
  unfold key_le. split.
  - intros H. destruct (record_key_compare a b) eqn:E.
    + right. now apply record_key_compare_eq.
    + now left.
    + now destruct H.
  - intros [H | ->]; [rewrite H | rewrite record_key_compare_refl]; discriminate.
Qed.

Lemma key_le_trans (a b c : RecordKey) : key_le a b -> key_le b c -> key_le a c.
Proof.
  rewrite !key_le_cases. intros [H1 | ->] [H2 | ->]; auto.
  left. exact (record_key_lt_trans _ _ _ H1 H2).
Qed.

Lemma key_le_of_gt (a b : RecordKey) : record_key_compare a b = Gt -> key_le b a.
Proof. intros H. apply key_le_cases. left. now apply record_key_compare_gt. Qed.

Context {A : Type} (sort_key : A -> RecordKey).

Lemma insert_by_perm (x : A) (l : list A) :
  Permutation (insert_by sort_key x l) (x :: l).
Proof.
  induction l as [|h t IH]; cbn; [reflexivity |].
  destruct (record_key_compare (sort_key x) (sort_key h)); try reflexivity.
  rewrite IH. apply perm_swap.
Qed.

Lemma sorted_by_perm (l : list A) : Permutation (sorted_by sort_key l) l.
Proof.
  induction l as [|x l IH]; cbn; [reflexivity |].
  rewrite insert_by_perm. now constructor.
Qed.

Lemma insert_by_sorted (x : A) (l : list A) :
  StronglySorted (fun a b => key_le (sort_key a) (sort_key b)) l ->
  StronglySorted (fun a b => key_le (sort_key a) (sort_key b))
    (insert_by sort_key x l).
Proof.
  induction 1 as [|h t Hs IH Hall]; cbn; [repeat constructor |].
  destruct (record_key_compare (sort_key x) (sort_key h)) eqn:E.
  - constructor; [now constructor |].
    assert (Hle : key_le (sort_key x) (sort_key h))
      by (unfold key_le; rewrite E; discriminate).
    constructor; [exact Hle |].
    rewrite Forall_forall in Hall |- *. intros y Hy.
    exact (key_le_trans _ _ _ Hle (Hall y Hy)).
  - constructor; [now constructor |].
    assert (Hle : key_le (sort_key x) (sort_key h))
      by (unfold key_le; rewrite E; discriminate).
    constructor; [exact Hle |].
    rewrite Forall_forall in Hall |- *. intros y Hy.
    exact (key_le_trans _ _ _ Hle (Hall y Hy)).
  - constructor; [exact IH |].
    rewrite Forall_forall in Hall |- *. intros y Hy.
    apply (Permutation_in _ (insert_by_perm x t)) in Hy as [<- | Hy].
    + now apply key_le_of_gt.
    + now apply Hall.
Qed.

Lemma sorted_by_sorted (l : list A) :
  StronglySorted (fun a b => key_le (sort_key a) (sort_key b)) (sorted_by sort_key l).
Proof.
  induction l as [|x l IH]; cbn; [constructor | now apply insert_by_sorted].
Qed.

Lemma filter_sorted (R : A -> A -> Prop) (f : A -> bool) (l : list A) :
  StronglySorted R l -> StronglySorted R (filter f l).
Proof.
  induction 1 as [|h t Hs IH Hall]; cbn; [constructor |].
  destruct (f h); [| exact IH]. constructor; [exact IH |].
  rewrite Forall_forall in Hall |- *. intros y Hy.
  apply filter_In in Hy as [Hy _]. now apply Hall.
Qed.

Lemma filter_perm (f : A -> bool) (l l' : list A) :
  Permutation l l' -> Permutation (filter f l) (filter f l').
Proof.
  induction 1 as [| x l l' _ IH | x y l | l l' l'' _ IH1 _ IH2]; cbn.
  - constructor.
  - destruct (f x); [now constructor | exact IH].
  - destruct (f x), (f y); try reflexivity. apply perm_swap.
  - now transitivity (filter f l').
Qed.

End ExportOrder.

Lemma map_sorted {A B : Type} (R : A -> A -> Prop) (R' : B -> B -> Prop)
    (g : A -> B) (l : list A) :
  (forall x y, R x y -> R' (g x) (g y)) ->
  StronglySorted R l -> StronglySorted R' (map g l).
Proof.
  intros H. induction 1 as [|h t Hs IH Hall]; cbn; constructor; [exact IH |].
  rewrite Forall_forall in Hall |- *. intros y Hy.
  apply in_map_iff in Hy as (x & <- & Hx). now apply H, Hall.
Qed.

(** X21.  The exported records are the entries of the records of the state,
    SOA apart, each once, in increasing order of name, type and value; the
    key "default_ttl" is left out when the state has none or has zero. *)
Theorem zone_state_to_dict_sorted (zone_state : ZoneState) (soa : option SOADict) :
  let data := zone_state_to_dict zone_state soa in
  Permutation (data_records data)
    (map (fun record => _record_to_dict record (origin zone_state))
       (filter (fun record => negb (is_soa record)) (records zone_state)))
  /\ StronglySorted (fun a b => key_le (entry_key a) (entry_key b)) (data_records data)
  /\ data_zone data = origin zone_state
  /\ data_soa data = soa
  /\ (data_default_ttl data = None
      <-> default_ttl zone_state = None \/ default_ttl zone_state = Some 0%Z)
  /\ (forall t, data_default_ttl data = Some t ->
        default_ttl zone_state = Some t /\ t <> 0%Z).
Proof.
  cbv zeta. unfold zone_state_to_dict. cbn [data_records data_zone data_soa data_default_ttl].
  split; [| split; [| split; [reflexivity | split; [reflexivity |]]]].
  - apply Permutation_map, filter_perm, sorted_by_perm.
  - apply (map_sorted
             (fun a b =>
                key_le (owner_for_zone a (origin zone_state), type a, value a)
                       (owner_for_zone b (origin zone_state), type b, value b))).
    + intros x y H. exact H.
    + apply filter_sorted, sorted_by_sorted.
  - unfold Py.truthy_int. destruct (default_ttl zone_state) as [t |].
    + destruct (Z.eqb_spec t 0) as [-> | Hne]; cbn [negb].
      * split; [split; [intros _; now right | reflexivity] |].
        intros t' H. discriminate H.
      * split.
        -- split; [discriminate |].
           intros [H | H]; [discriminate H | injection H as H; contradiction].
        -- intros t' [= <-]. now split.
    + split; [split; [intros _; now left | reflexivity] |].
      intros t' H. discriminate H.
Qed.

(** ** Command line and configuration *)

Section TemplateVars.

Lemma split_once_join (sep : ascii) (k y : string) :
  contains_char sep k = false ->
  split_once sep (k ++ String sep y) = (k, y)
  /\ contains_char sep (k ++ String sep y) = true.
Proof.
  induction k as [|x k IH]; cbn.
  - intros _. rewrite Ascii.eqb_refl. split; reflexivity.
  - intros H. apply orb_false_iff in H as [Hx Hk]. rewrite Hx.
    destruct (IH Hk) as [IH1 IH2]. rewrite IH1, IH2. split; reflexivity.
Qed.

Lemma find_snoc {A : Type} (f : A -> bool) (l : list A) (x : A) :
  find f (l ++ [x])
  = match find f l with
    | Some y => Some y
    | None => if f x then Some x else None
    end.
Proof.
  induction l as [|h t IH]; cbn; [reflexivity |].
  destruct (f h); [reflexivity | exact IH].
Qed.

End TemplateVars.

Lemma _parse_template_vars_spec (values : list string) :
  match find (fun v => negb (contains_char "=" v)) values with
  | Some bad =>
      _parse_template_vars (Some values)
      = inl (Bind9CtlError ("Invalid template var '" ++ bad ++ "', expected KEY=VALUE."))
  | None =>
      exists d,
        _parse_template_vars (Some values) = inr d
        /\ forall k,
             dict_get String.eqb d k
             = option_map snd
                 (find (fun kv => String.eqb k (fst kv))
                    (rev (map (split_once "=") values)))
  end.
Proof.
  unfold _parse_template_vars.
  induction values as [|v values IH] using rev_ind.
  - exists []. split; reflexivity.
  - rewrite find_snoc, fold_left_app, map_app, rev_app_distr. cbn [fold_left map rev app].
    destruct (find (fun v0 => negb (contains_char "=" v0)) values) as [bad |].
    + rewrite IH. reflexivity.
    + destruct IH as (d & -> & Hd). cbn [bind_result].
      destruct (contains_char "=" v); cbn [negb].
      * destruct (split_once "=" v) as [k x] eqn:E. exists (dict_set String.eqb d k x).
        split; [reflexivity |]. intros k'.
        rewrite (dict_get_set _ String.eqb_eq). cbn [find fst].
        destruct (String.eqb k' k); [reflexivity | apply Hd].
      * reflexivity.
Qed.

(** X22.  Assignments round-trip.  Written as [KEY=VALUE], with keys that
    hold no "=", a list of assignments parses, and looking a key up in the
    result gives the value of its last assignment (a value may itself hold
    "="); a key never assigned is not in the result. *)
Theorem _parse_template_vars_round_trip (pairs : list (string * string)) :
  Forall (fun kv => contains_char "=" (fst kv) = false) pairs ->
  exists d,
    _parse_template_vars
      (Some (map (fun kv => (fst kv ++ String "=" (snd kv))%string) pairs)) = inr d
    /\ forall k,
         dict_get String.eqb d k
         = option_map snd (find (fun kv => String.eqb k (fst kv)) (rev pairs)).
Proof.
  intros Hkeys.
  assert (Hfind : find (fun v => negb (contains_char "=" v))
                    (map (fun kv => (fst kv ++ String "=" (snd kv))%string) pairs)
                  = None).
  { induction Hkeys as [|kv l Hk _ IH]; cbn; [reflexivity |].
    destruct (split_once_join "=" (fst kv) (snd kv) Hk) as [_ ->]. exact IH. }
  assert (Hmap : map (split_once "=")
                   (map (fun kv => (fst kv ++ String "=" (snd kv))%string) pairs)
                 = pairs).
  { clear Hfind. induction Hkeys as [|kv l Hk _ IH]; cbn; [reflexivity |].
    destruct (split_once_join "=" (fst kv) (snd kv) Hk) as [-> _].
    rewrite IH. now destruct kv. }
  pose proof (_parse_template_vars_spec
                (map (fun kv => (fst kv ++ String "=" (snd kv))%string) pairs)) as H.
  rewrite Hfind, Hmap in H. exact H.
Qed.

Lemma _parse_template_vars_round_trip_witness :
  exists d,
    _parse_template_vars (Some ["env=prod"; "ttl=60"; "env=a=b"]) = inr d
    /\ forall k,
         dict_get String.eqb d k
         = option_map snd
             (find (fun kv => String.eqb k (fst kv))
                (rev [("env", "prod"); ("ttl", "60"); ("env", "a=b")])).
Proof.
  apply (_parse_template_vars_round_trip [("env", "prod"); ("ttl", "60"); ("env", "a=b")]).
  repeat constructor.
Defined.

(** X23.  The template variables.  With a value that has no "=" the parse
    fails, naming the first such value; otherwise it returns a dict in
    which every key has the text after the first "=" of its last
    assignment.  No values at all give the empty dict. *)
Theorem _parse_template_vars_cases (values : list string) :
  match find (fun v => negb (contains_char "=" v)) values with
  | Some bad =>
      _parse_template_vars (Some values)
      = inl (Bind9CtlError ("Invalid template var '" ++ bad ++ "', expected KEY=VALUE."))
  | None =>
      exists d,
        _parse_template_vars (Some values) = inr d
        /\ forall k,
             dict_get String.eqb d k
             = option_map snd
                 (find (fun kv => String.eqb k (fst kv))
                    (rev (map (split_once "=") values)))
  end
  /\ _parse_template_vars None = inr []
  /\ _parse_template_vars (Some []) = inr [].
Proof.
  split; [apply _parse_template_vars_spec | split; reflexivity].
Qed.

(** X24.  [_parse_bool] reads an ASCII text without regard to letter case
    (beyond ASCII the case mappings of Python are not one to one, and
    nothing is said), and any text without regard to the blanks around it;
    with a text at hand the default plays no part, and without one the
    default is the answer. *)
Theorem _parse_bool_insensitive (s : string) (default default' : bool) :
  (isascii s = true ->
   _parse_bool (Some (Py.upper s)) default = _parse_bool (Some s) default
   /\ _parse_bool (Some (Py.lower s)) default = _parse_bool (Some s) default)
  /\ _parse_bool (Some (Py.strip s)) default = _parse_bool (Some s) default
  /\ _parse_bool (Some s) default = _parse_bool (Some s) default'
  /\ _parse_bool None default = default.
Proof.
  unfold _parse_bool. repeat split.
  - now rewrite strip_upper_comm, lower_upper.
  - now rewrite strip_lower_comm, lower_idem.
  - now rewrite strip_idem.
Qed.

(** The answer "  Yes " of an environment variable, and its upper case. *)
Lemma _parse_bool_insensitive_witness :
  _parse_bool (Some (Py.upper "  Yes ")) false = _parse_bool (Some "  Yes ") false
  /\ _parse_bool (Some "  Yes ") false = true.
Proof.
  destruct (_parse_bool_insensitive "  Yes " false true) as (Hcase & _ & _ & _).
  split; [apply Hcase; reflexivity | reflexivity].
Defined.

(** ** Letter case, the SOA under the filter, and pull *)

Section CaseFacts.

Lemma upper_lower_char (c : ascii) : Py.upper_char (Py.lower_char c) = Py.upper_char c.
Proof. destruct c as [[] [] [] [] [] [] [] []]; reflexivity. Qed.

Lemma upper_char_marks (c : ascii) :
  Ascii.eqb (Py.upper_char c) "." = Ascii.eqb c "."
  /\ Ascii.eqb (Py.upper_char c) "@" = Ascii.eqb c "@".
Proof. destruct c as [[] [] [] [] [] [] [] []]; split; reflexivity. Qed.

Lemma lower_char_marks (c : ascii) :
  Ascii.eqb (Py.lower_char c) "." = Ascii.eqb c "."
  /\ Ascii.eqb (Py.lower_char c) "@" = Ascii.eqb c "@".
Proof. destruct c as [[] [] [] [] [] [] [] []]; split; reflexivity. Qed.

Lemma endswith_dot_cons (c : ascii) (s : string) :
  Py.endswith (String c s) "."
  = match s with
    | EmptyString => Ascii.eqb c "."
    | String _ _ => Py.endswith s "."
    end.
Proof.
  destruct s as [|d s]; unfold Py.endswith.
  - cbn. destruct (Ascii.eqb c "."); reflexivity.
  - cbn [String.length Nat.leb Nat.sub substring andb].
    rewrite !Nat.sub_0_r. reflexivity.
Qed.

Section CaseMap.
Variable f : ascii -> ascii.
Hypothesis f_space : forall c, Py.is_space (f c) = Py.is_space c.
Hypothesis f_marks : forall c,
  Ascii.eqb (f c) "." = Ascii.eqb c "." /\ Ascii.eqb (f c) "@" = Ascii.eqb c "@".

Lemma endswith_dot_map (s : string) :
  Py.endswith (Py.map_chars f s) "." = Py.endswith s ".".
Proof.
  induction s as [|c s IH]; [reflexivity |].
  cbn [Py.map_chars]. rewrite !endswith_dot_cons.
  destruct s as [|d s]; [apply f_marks | exact IH].
Qed.

Lemma f_dot : Py.map_chars f "." = ".".
Proof.
  cbn. destruct (f_marks ".") as [H _]. cbn in H.
  apply Ascii.eqb_eq in H. now rewrite H.
Qed.

Lemma eqb_empty_map (s : string) :
  String.eqb (Py.map_chars f s) "" = String.eqb s "".
Proof. destruct s; reflexivity. Qed.

Lemma eqb_at_map (s : string) :
  String.eqb (Py.map_chars f s) "@" = String.eqb s "@".
Proof.
  destruct s as [|c [|d s]]; cbn; [reflexivity | |].
  - destruct (f_marks c) as [_ ->]. reflexivity.
  - destruct (f_marks c) as [_ ->]. reflexivity.
Qed.

Lemma _ensure_absolute_map (x : string) :
  _ensure_absolute (Py.map_chars f x) = Py.map_chars f (_ensure_absolute x).
Proof.
  unfold _ensure_absolute.
  rewrite (strip_map_chars f x f_space), endswith_dot_map, eqb_empty_map, eqb_at_map.
  destruct (String.eqb (Py.strip x) ""); [now rewrite f_dot |].
  destruct (String.eqb (Py.strip x) "@"); [now rewrite f_dot |].
  destruct (Py.endswith (Py.strip x) "."); [reflexivity |].
  now rewrite map_chars_append, f_dot.
Qed.

End CaseMap.

Lemma find_filter {A : Type} (f keep : A -> bool) (l : list A) :
  (forall x, f x = true -> keep x = true) ->
  find f (filter keep l) = find f l.
Proof.
  intros H. induction l as [|x l IH]; cbn; [reflexivity |].
  destruct (keep x) eqn:Ek; cbn.
  - destruct (f x); [reflexivity | exact IH].
  - destruct (f x) eqn:Ef; [| exact IH]. apply H in Ef. congruence.
Qed.

End CaseFacts.

(** X25.  For a record whose owner and type are ASCII text (beyond ASCII
    the case mappings of Python are not one to one, and nothing is said),
    the identity does not depend on the letter case of the owner or of
    the type: writing the owner in upper or in lower case leaves the
    canonical name, and writing the type in lower or in upper case leaves
    the canonical type. *)
Theorem canonical_case_insensitive (r : DnsRecord) :
  isascii (name r) = true ->
  isascii (type r) = true ->
  canonical_name (mkRecord (Py.upper (name r)) (type r) (ttl r) (value r) (priority r))
  = canonical_name r
  /\ canonical_name (mkRecord (Py.lower (name r)) (type r) (ttl r) (value r) (priority r))
     = canonical_name r
  /\ canonical_type (mkRecord (name r) (Py.lower (type r)) (ttl r) (value r) (priority r))
     = canonical_type r
  /\ canonical_type (mkRecord (name r) (Py.upper (type r)) (ttl r) (value r) (priority r))
     = canonical_type r.
Proof.
  intros _ _.
  unfold canonical_name, canonical_type. cbn [name type]. repeat split.
  - unfold Py.upper. rewrite (_ensure_absolute_map _ is_space_upper_char upper_char_marks).
    apply lower_upper.
  - unfold Py.lower at 2.
    rewrite (_ensure_absolute_map _ is_space_lower_char lower_char_marks).
    apply lower_idem.
  - apply map_chars_compose, upper_lower_char.
  - apply upper_idem.
Qed.

(** An owner and a type written in mixed case. *)
Lemma canonical_case_insensitive_witness :
  canonical_name (mkRecord "WWW.EXAMPLE.COM" "Cname" 300 "Host.example.com." None)
  = canonical_name (mkRecord "Www.Example.com" "Cname" 300 "Host.example.com." None)
  /\ canonical_type (mkRecord "Www.Example.com" "CNAME" 300 "Host.example.com." None)
     = canonical_type (mkRecord "Www.Example.com" "Cname" 300 "Host.example.com." None).
Proof.
  destruct (canonical_case_insensitive
              (mkRecord "Www.Example.com" "Cname" 300 "Host.example.com." None)
              eq_refl eq_refl) as (Hupper & _ & _ & Htype).
  split; [exact Hupper | exact Htype].
Defined.

(** X26.  The ignore patterns cannot hide the SOA: the filtered state has
    the SOA record of the state itself, so the negotiation gives the same
    answer on either. *)
Theorem _filter_records_keeps_soa (fnmatch : string -> string -> bool)
    (clock : Clock) (config : AppConfig) (desired : DesiredZone)
    (current : ZoneState) (patterns : list string) :
  find_soa (_filter_records fnmatch current patterns) = find_soa current
  /\ _build_soa_config clock config desired (_filter_records fnmatch current patterns)
     = _build_soa_config clock config desired current.
Proof.
  assert (H : find_soa (_filter_records fnmatch current patterns) = find_soa current).
  { unfold find_soa. rewrite _filter_records_records. apply find_filter.
    intros x Hx. unfold is_soa in Hx. rewrite Hx. now rewrite orb_true_r. }
  split; [exact H |]. unfold _build_soa_config, live_soa. now rewrite H.
Qed.

(** X27.  Pull and plan read the live SOA alike: [pull_state] fails exactly
    when the negotiation fails on that state, with the same exception, and
    when it succeeds it returns the state as fetched. *)
Theorem pull_state_fails (clock : Clock) (config : AppConfig) (desired : DesiredZone)
    (zone_state : ZoneState) (e : Exception) :
  (pull_state zone_state = inl e
   <-> _build_soa_config clock config desired zone_state = inl e)
  /\ (forall pulled soa, pull_state zone_state = inr (pulled, soa) ->
        pulled = zone_state /\ (soa = None <-> find_soa zone_state = None)).
Proof.
  unfold pull_state, _build_soa_config, live_soa, bind_result.
  destruct (find_soa zone_state) as [r |].
  - destruct (_parse_soa_record r) as [e' | d].
    + split; [split; intros H; injection H as ->; reflexivity |].
      intros pulled soa H. discriminate H.
    + split; [split; intros H; discriminate H |].
      intros pulled soa H. injection H as <- <-.
      split; [reflexivity | split; intros H; discriminate H].
  - split; [split; intros H; discriminate H |].
    intros pulled soa H. injection H as <- <-.
    split; [reflexivity | split; reflexivity].
Qed.
